(** * SafeTrail: the travel-safety risk scripts

    A shallow embedding of [backend/ml_model/predict.py] (the wired-up
    script, module [Predict]) and [backend/ml_model/predict_template.py]
    (the templated script, module [Template]), followed by the properties
    of the risk classifier that the specification states.

    Conventions of the embedding:
    - Python [str] is [string] (a sequence of bytes); [str.lower] and
      [str.title] act on the ASCII letters and leave other bytes alone.
    - Python [float] is [Q]; a decimal literal such as [0.7] is the
      rational it denotes.
    - A [dict] that is printed with [json.dumps] is an association list in
      insertion order ([pydict]); [json] is the tree [json.dumps] prints.
    - A call that can raise returns in the exception monad [exc];
      [try]/[except Exception] is [try_except].
    - Messages written to [sys.stderr] are not part of the model. *)

From Stdlib Require Import String Ascii List QArith Lia Lqa Bool Arith DecimalString.
Import ListNotations.
Local Close Scope Q_scope.
Local Open Scope nat_scope.
Local Open Scope list_scope.
Local Open Scope string_scope.

(* ===================================================================== *)
(** ** Python primitives used by both scripts *)
(* ===================================================================== *)

Module Py.

(** *** Exceptions *)

Inductive exc (A : Type) : Type :=
| Ok (a : A)
| Raise (e : string).

Arguments Ok {A} a.
Arguments Raise {A} e.

Definition bind {A B : Type} (m : exc A) (k : A -> exc B) : exc B :=
  match m with
  | Ok a => k a
  | Raise e => Raise e
  end.

Notation "x <- m ;; k" := (bind m (fun x => k))
  (at level 61, m at next level, right associativity).

(** [try: m  except Exception as e: handler e] *)
Definition try_except {A : Type} (m : exc A) (handler : string -> A) : A :=
  match m with
  | Ok a => a
  | Raise e => handler e
  end.

(** *** Strings *)

Definition is_upper (c : ascii) : bool :=
  let n := nat_of_ascii c in ((65 <=? n) && (n <=? 90))%nat.

Definition is_lower (c : ascii) : bool :=
  let n := nat_of_ascii c in ((97 <=? n) && (n <=? 122))%nat.

Definition lower_char (c : ascii) : ascii :=
  if is_upper c then ascii_of_nat (nat_of_ascii c + 32) else c.

Definition upper_char (c : ascii) : ascii :=
  if is_lower c then ascii_of_nat (nat_of_ascii c - 32) else c.

(** [s.lower()] *)
Fixpoint lower (s : string) : string :=
  match s with
  | EmptyString => EmptyString
  | String c s' => String (lower_char c) (lower s')
  end.

(** [needle in hay] on strings: [needle] occurs at some position. *)
Fixpoint str_in (needle hay : string) : bool :=
  if prefix needle hay then true
  else match hay with
       | EmptyString => false
       | String _ hay' => str_in needle hay'
       end.

(** [s.replace(c, '')] for a one-character [c]. *)
Fixpoint remove_char (c : ascii) (s : string) : string :=
  match s with
  | EmptyString => EmptyString
  | String a s' =>
      if Ascii.eqb a c then remove_char c s' else String a (remove_char c s')
  end.

(** [s.replace(c, d)] for one-character [c] and [d]. *)
Fixpoint replace_char (c d : ascii) (s : string) : string :=
  match s with
  | EmptyString => EmptyString
  | String a s' =>
      String (if Ascii.eqb a c then d else a) (replace_char c d s')
  end.

(** [s.title()]: a letter that follows a letter is lower-cased, any
    other letter is upper-cased. *)
Fixpoint title_from (prev_cased : bool) (s : string) : string :=
  match s with
  | EmptyString => EmptyString
  | String c s' =>
      let cased := is_upper c || is_lower c in
      String (if cased then (if prev_cased then lower_char c else upper_char c)
              else c)
             (title_from cased s')
  end.

Definition title (s : string) : string := title_from false s.

(** [str(n)] for a non-negative [int]. *)
Definition str_of_nat (n : nat) : string :=
  NilEmpty.string_of_uint (Nat.to_uint n).

Definition str_of_codes (l : list nat) : string :=
  fold_right (fun n s => String (ascii_of_nat n) s) EmptyString l.

Definition newline : string := str_of_codes [10].

(** *** JSON values and dictionaries *)

#[local] Unset Elimination Schemes.
Inductive json : Type :=
| JNull
| JStr (s : string)
| JInt (n : nat)
| JNum (q : Q)
| JList (l : list json)
| JObj (fields : list (string * json)).
#[local] Set Elimination Schemes.

Definition pydict : Type := list (string * json).

(** [d.get(k)] on a dictionary with string keys. *)
Fixpoint dict_get {A : Type} (k : string) (d : list (string * A)) : option A :=
  match d with
  | [] => None
  | (k', v) :: d' => if String.eqb k k' then Some v else dict_get k d'
  end.

Definition keys (d : pydict) : list string := map fst d.

(** An optional string as a JSON value ([None] prints as [null]). *)
Definition opt_str (o : option string) : json :=
  match o with
  | Some s => JStr s
  | None => JNull
  end.

Definition strs (l : list string) : json := JList (map JStr l).

(** Truth value of an optional string: [None] and [''] are false. *)
Definition truthy (o : option string) : bool :=
  match o with
  | Some (String _ _) => true
  | _ => false
  end.

(** [a or b] *)
Definition py_or (a b : option string) : option string :=
  if truthy a then a else b.

(** [l.append(x)] *)
Definition append {A : Type} (l : list A) (x : A) : list A := (l ++ [x])%list.

(** [a < b] and [a <= b] on numbers. *)
Definition ltb (a b : Q) : bool := negb (Qle_bool b a).
Definition leb (a b : Q) : bool := Qle_bool a b.

End Py.

Import Py.

(* ===================================================================== *)
(** ** predict.py: the wired-up script *)
(* ===================================================================== *)

Module Predict.

Definition THREAT_KEYWORDS : list string :=
  ["protest"; "riot"; "unrest"; "violence"; "flood"; "cyclone";
   "disaster"; "scam"; "theft"; "robbery"; "accident"].

(** *** Data *)

(** A news article: [{"title": .., "source": {"name": ..}, "url": ..}];
    an absent key is [None]. *)
Record news_source : Type := { src_name : option string }.

Record article : Type := {
  art_title : option string;
  art_source : option news_source;
  art_url : option string
}.

(** An entry of [threats_detected]: the dict with the keys [title],
    [source], [url] and [district] built in the loop. *)
Record threat : Type := {
  t_title : string;
  t_source : option string;
  t_url : option string;
  t_district : string
}.

Definition threat_dict (t : threat) : pydict :=
  [("title", JStr (t_title t));
   ("source", opt_str (t_source t));
   ("url", opt_str (t_url t));
   ("district", JStr (t_district t))].

(** The profile table read by [pd.read_csv]: one association list per
    row, in column order; a cell is its text, or [None] for NaN. *)
Definition cell : Type := option string.
Definition row : Type := list (string * cell).
Definition dataframe : Type := list row.

(** What the geocoder answers: [location.raw.get('address')]. *)
Definition address : Type := list (string * string).
Record location : Type := { raw_address : option address }.

(** The world outside the script. *)
Record env : Type := {
  (** [self.geolocator.reverse((lat, lon), exactly_one=True)] *)
  reverse : Q -> Q -> exc (option location);
  (** [THREAT_PROFILE_FILE]: [None] when the file does not exist,
      otherwise what [pd.read_csv] does with it *)
  profile_file : option (exc dataframe);
  (** [(datetime.now() - start_time).total_seconds()] *)
  elapsed : Q;
  (** [float(s)] *)
  parse_float : string -> exc Q
}.

(** The object's attributes (the geolocator lives in [env]). *)
Record model : Type := {
  model_loaded : bool;
  data_loaded : bool;
  model_version : string;
  threat_profiles_df : option dataframe
}.

(** [__init__] *)
Definition init : model :=
  {| model_loaded := false;
     data_loaded := false;
     model_version := "1.0";
     threat_profiles_df := None |}.

Definition set_model_loaded (b : bool) (self : model) : model :=
  {| model_loaded := b;
     data_loaded := data_loaded self;
     model_version := model_version self;
     threat_profiles_df := threat_profiles_df self |}.

Definition load_model (E : env) (self : model) : model :=
  match profile_file E with
  | Some (Ok df) =>
      {| model_loaded := true;
         data_loaded := data_loaded self;
         model_version := model_version self;
         threat_profiles_df := Some df |}
  | Some (Raise _) => set_model_loaded false self
  | None => set_model_loaded false self
  end.

(** *** Reverse geocoding *)

Definition get_district_from_coordinates (E : env) (latitude longitude : Q)
  : option string :=
  try_except
    (bind (reverse E latitude longitude) (fun loc =>
       match loc with
       | Some location =>
           match raw_address location with
           | Some (entry :: rest) =>
               let address := entry :: rest in
               Ok (py_or (dict_get "city_district" address)
                  (py_or (dict_get "suburb" address)
                  (py_or (dict_get "city" address)
                  (py_or (dict_get "county" address)
                         (dict_get "state_district" address)))))
           | _ => Ok None
           end
       | None => Ok None
       end))
    (fun _ => None).

(** *** Profile lookup *)

(** [df['District'].str.lower() == district_name.lower()] on one row. *)
Definition row_matches (district_name : string) (r : row) : bool :=
  match dict_get "District" r with
  | Some (Some d) => String.eqb (lower d) (lower district_name)
  | _ => false
  end.

(** The loop over [threats_dict.items()]. *)
Definition format_item (threat_message : string) (kv : string * cell) : string :=
  match kv with
  | (key, Some value) =>
      if negb (String.eqb key "District") then
        let clean_value :=
          remove_char "'" (remove_char "]" (remove_char "[" value)) in
        threat_message ++ newline ++ "- "
          ++ title (replace_char "_" " " key) ++ ": " ++ clean_value
      else threat_message
  | (_, None) => threat_message
  end.

(** A missing [District] column makes pandas raise inside the [try]; the
    method's own handler then falls through to the same last [return] as
    an empty selection does. *)
Definition get_district_threats (self : model) (district_name : option string)
  : string :=
  match threat_profiles_df self, district_name with
  | Some df, Some name =>
      match filter (row_matches name) df with
      | threats_dict :: _ => fold_left format_item threats_dict ""
      | [] => "No specific threat data available for this district"
      end
  | _, _ => "No threat data available"
  end.

(** *** The signal source *)

Definition mk_article (title source url : string) : article :=
  {| art_title := Some title;
     art_source := Some {| src_name := Some source |};
     art_url := Some url |}.

Definition get_mock_news_articles : list article :=
  [mk_article "Heavy rains and flood warnings issued for Delhi"
              "Indian News" "https://example.com/delhi-flood";
   mk_article "Mumbai traffic chaos due to political protest"
              "Local Times" "https://example.com/mumbai-protest";
   mk_article "Tourist scams on the rise in Jaipur"
              "Travel Journal" "https://example.com/jaipur-scams";
   mk_article "Road accidents increase in Bangalore"
              "City News" "https://example.com/bangalore-accidents";
   mk_article "Theft incidents reported in Chennai"
              "Local Herald" "https://example.com/chennai-theft"].

(** *** The classifier *)

(** The body of [for article in news_articles]. *)
Definition scan_article (district_name : string)
           (threats_detected : list threat) (article : article) : list threat :=
  let title :=
    match art_title article with Some t => t | None => "" end in
  if existsb (fun keyword => str_in keyword (lower title)) THREAT_KEYWORDS
     && str_in (lower district_name) (lower title)
  then append threats_detected
         {| t_title := title;
            t_source := match art_source article with
                        | Some source => src_name source
                        | None => None
                        end;
            t_url := art_url article;
            t_district := district_name |}
  else threats_detected.

Definition detect_threats (news_articles : list article) (district_name : string)
  : list threat :=
  fold_left (scan_article district_name) news_articles [].

Definition _generate_insights (district_name : string)
           (threats_detected : list threat) (threat_profile : string)
  : list string :=
  let insights := ["Analyzing safety conditions in " ++ district_name] in
  let insights :=
    if (0 <? length threats_detected)%nat then
      fold_left
        (fun insights threat =>
           append insights ("Active threat: " ++ t_title threat))
        threats_detected
        (append insights
           ("Found " ++ str_of_nat (length threats_detected)
                     ++ " active threat(s) in the area"))
    else append insights "No active threats detected in recent news" in
  let insights :=
    if negb (str_in "No specific threat data" threat_profile) then
      append insights "Historical threat data available for this district"
    else
      append insights "Limited historical threat data for this district" in
  append insights "Analysis based on real-time news and historical data".

(** The three badges are the bytes the source file holds. *)
Definition high_badge : string :=
  str_of_codes [195; 162; 197; 161; 194; 160; 195; 175; 194; 184].
Definition moderate_badge : string :=
  str_of_codes [195; 176; 197; 184; 197; 184; 194; 161].
Definition low_badge : string :=
  str_of_codes [195; 176; 197; 184; 197; 184; 194; 162].

Definition _generate_recommendations (risk_level : string)
           (threats_detected : list threat) : list string :=
  let recommendations :=
    if String.eqb risk_level "high" then
      [high_badge ++ " HIGH RISK: Avoid this area if possible";
       "Stay alert and aware of your surroundings";
       "Consider alternative routes or postpone travel";
       "Keep emergency contacts readily available"]
    else if String.eqb risk_level "medium" then
      [moderate_badge ++ " MODERATE RISK: Exercise caution";
       "Be extra vigilant in this area";
       "Avoid isolated or poorly lit areas";
       "Stay informed about local conditions"]
    else
      [low_badge ++ " LOW RISK: Normal safety precautions apply";
       "Maintain general awareness of surroundings";
       "Follow standard safety practices"] in
  if (0 <? length threats_detected)%nat then
    append (append recommendations "Monitor local news for updates")
           "Consider using alternative transportation"
  else recommendations.

Definition _generate_prediction (district_name risk_level : string)
           (threats_detected : list threat) : string :=
  if String.eqb risk_level "high" then
    "High risk detected in " ++ district_name
      ++ ". Multiple threats identified. Avoid if possible."
  else if String.eqb risk_level "medium" then
    "Moderate risk in " ++ district_name
      ++ ". Some safety concerns present. Exercise caution."
  else
    "Low risk in " ++ district_name
      ++ ". Area appears generally safe for normal activities.".

Definition _check_safety_alert (risk_level : string)
           (threats_detected : list threat) : json :=
  if String.eqb risk_level "high" && (0 <? length threats_detected)%nat then
    JObj [("type", JStr "high_risk_area");
          ("severity", JStr "high");
          ("message",
           JStr ("High risk area detected with "
                 ++ str_of_nat (length threats_detected)
                 ++ " active threat(s). Please exercise extreme caution."))]
  else if String.eqb risk_level "medium" && (0 <? length threats_detected)%nat then
    JObj [("type", JStr "moderate_risk");
          ("severity", JStr "medium");
          ("message",
           JStr ("Moderate risk detected with "
                 ++ str_of_nat (length threats_detected)
                 ++ " active threat(s). Please be cautious."))]
  else JNull.

Definition _get_fallback_result (self : model) (error_message : string) : pydict :=
  [("risk_level", JStr "unknown");
   ("confidence", JNum 0.0);
   ("prediction", JStr ("Analysis failed: " ++ error_message));
   ("insights", strs ["Unable to analyze location"; "Please try again"]);
   ("recommendations", strs ["Use general safety precautions"; "Stay alert"]);
   ("safety_alert", JNull);
   ("model_version", JStr (model_version self));
   ("processing_time", JNum 0.0);
   ("district", JStr "Unknown");
   ("threats_detected", JInt 0);
   ("threat_details", JList [])].

(** The [try] block of [analyze_threats]. *)
Definition analyze_threats_try (E : env) (self : model)
           (latitude longitude accuracy : Q) (user_id : string) : exc pydict :=
  let district_name := get_district_from_coordinates E latitude longitude in
  match district_name with
  | None | Some "" =>
      Ok (_get_fallback_result self
            "Could not determine district from coordinates")
  | Some district_name =>
      let threat_profile := get_district_threats self (Some district_name) in
      let news_articles := get_mock_news_articles in
      let threats_detected := detect_threats news_articles district_name in
      let risk_level :=
        if (0 <? length threats_detected)%nat then
          (if (2 <=? length threats_detected)%nat then "high" else "medium")
        else "low" in
      let confidence :=
        if (0 <? length threats_detected)%nat then
          (if (2 <=? length threats_detected)%nat then 0.9%Q else 0.8%Q)
        else 0.7%Q in
      let insights :=
        _generate_insights district_name threats_detected threat_profile in
      let recommendations :=
        _generate_recommendations risk_level threats_detected in
      let prediction :=
        _generate_prediction district_name risk_level threats_detected in
      let safety_alert := _check_safety_alert risk_level threats_detected in
      let processing_time := elapsed E in
      Ok [("risk_level", JStr risk_level);
          ("confidence", JNum confidence);
          ("prediction", JStr prediction);
          ("insights", strs insights);
          ("recommendations", strs recommendations);
          ("safety_alert", safety_alert);
          ("model_version", JStr (model_version self));
          ("processing_time", JNum processing_time);
          ("district", JStr district_name);
          ("threats_detected", JInt (length threats_detected));
          ("threat_details", JList (map (fun t => JObj (threat_dict t))
                                        threats_detected))]
  end.

(** The [except Exception as e] branch of [analyze_threats]; [e] is
    [str(e)]. *)
Definition analyze_threats_except (self : model) (e : string) : pydict :=
  _get_fallback_result self ("Analysis error: " ++ e).

Definition analyze_threats (E : env) (self : model)
           (latitude longitude accuracy : Q) (user_id : string) : pydict :=
  try_except
    (analyze_threats_try E self latitude longitude accuracy user_id)
    (analyze_threats_except self).

(** *** The command line *)

Definition usage : string :=
  "Invalid arguments. Usage: python predict.py <latitude> <longitude> <accuracy> <user_id>".

Definition error_result (e : string) : pydict :=
  [("error", JStr e);
   ("risk_level", JStr "unknown");
   ("confidence", JNum 0.0);
   ("prediction", JStr "Error occurred during analysis");
   ("insights", strs ["Model error occurred"]);
   ("recommendations", strs ["Please try again or contact support"]);
   ("safety_alert", JNull);
   ("model_version", JStr "1.0");
   ("processing_time", JNum 0.0);
   ("district", JStr "Unknown");
   ("threats_detected", JInt 0);
   ("threat_details", JList [])].

(** [main]: what is printed on standard output, and the exit status.
    [sys.exit(1)] raises [SystemExit], which [except Exception] does not
    catch, so the usage error leaves at once. *)
Definition main (E : env) (argv : list string) : json * nat :=
  if negb (length argv =? 5)%nat then (JObj [("error", JStr usage)], 1)
  else
    try_except
      (latitude <- parse_float E (nth 1 argv "") ;;
       longitude <- parse_float E (nth 2 argv "") ;;
       accuracy <- parse_float E (nth 3 argv "") ;;
       let user_id := nth 4 argv "" in
       let model := load_model E init in
       let result :=
         analyze_threats E model latitude longitude accuracy user_id in
       Ok (JObj result, 0))
      (fun e => (JObj (error_result e), 1)).

End Predict.

(* ===================================================================== *)
(** ** predict_template.py: the templated script *)
(* ===================================================================== *)

Module Template.

Record env : Type := {
  (** [(datetime.now() - start_time).total_seconds()] *)
  elapsed : Q;
  (** [float(s)] *)
  parse_float : string -> exc Q
}.

Record model : Type := {
  model_loaded : bool;
  data_loaded : bool;
  model_version : string
}.

Definition init : model :=
  {| model_loaded := false; data_loaded := false; model_version := "1.0" |}.

Definition load_model (self : model) : model :=
  {| model_loaded := true;
     data_loaded := data_loaded self;
     model_version := model_version self |}.

Definition load_data (self : model) (csv_path : string) : model :=
  {| model_loaded := model_loaded self;
     data_loaded := true;
     model_version := model_version self |}.

Definition _calculate_risk_level (lat lng accuracy : Q) : string :=
  if ltb 50 accuracy then "high"
  else if leb 23.0 lat && leb lat 23.1 && leb 72.5 lng && leb lng 72.6
       then "medium"
  else "low".

Definition _calculate_confidence (accuracy : Q) : Q :=
  if ltb accuracy 10 then 0.95%Q
  else if ltb accuracy 25 then 0.85%Q
  else if ltb accuracy 50 then 0.70%Q
  else 0.50%Q.

Definition _generate_prediction (risk_level : string) : string :=
  let predictions :=
    [("low", "Location appears safe for normal activities");
     ("medium", "Exercise caution in this area");
     ("high", "High risk area - avoid if possible")] in
  match dict_get risk_level predictions with
  | Some text => text
  | None => "Unknown risk level"
  end.

Definition _generate_insights (lat lng : Q) (risk_level : string) : list string :=
  if String.eqb risk_level "high" then
    ["High-risk area detected";
     "Historical incident data shows elevated risk"]
  else if String.eqb risk_level "medium" then
    ["Moderate risk factors present";
     "Some safety concerns in this area"]
  else
    ["Area appears generally safe";
     "Low historical incident rate"].

Definition _generate_recommendations (risk_level : string) : list string :=
  if String.eqb risk_level "high" then
    ["Avoid staying in this area for extended periods";
     "Stay alert and aware of surroundings";
     "Consider alternative routes if possible"]
  else if String.eqb risk_level "medium" then
    ["Be cautious and aware of your surroundings";
     "Avoid isolated areas"]
  else
    ["Continue normal activities with standard safety precautions";
     "Maintain general awareness"].

Definition _check_safety_alert (risk_level : string) (confidence : Q) : json :=
  if String.eqb risk_level "high" && ltb 0.8 confidence then
    JObj [("type", JStr "high_risk_area");
          ("severity", JStr "high");
          ("message",
           JStr "You are in a high-risk area. Please exercise extreme caution.")]
  else if String.eqb risk_level "medium" && ltb 0.7 confidence then
    JObj [("type", JStr "moderate_risk");
          ("severity", JStr "medium");
          ("message", JStr "Moderate risk detected. Please be cautious.")]
  else JNull.

Definition _get_fallback_result (self : model) : pydict :=
  [("risk_level", JStr "unknown");
   ("confidence", JNum 0.0);
   ("prediction", JStr "Model prediction failed");
   ("insights", strs ["Unable to analyze location"]);
   ("recommendations", strs ["Please try again or contact support"]);
   ("safety_alert", JNull);
   ("model_version", JStr (model_version self));
   ("processing_time", JNum 0.0)].

(** The [try] block of [predict]. *)
Definition predict_try (E : env) (self : model)
           (latitude longitude accuracy : Q) (user_id : string) : exc pydict :=
  let risk_level := _calculate_risk_level latitude longitude accuracy in
  let confidence := _calculate_confidence accuracy in
  let prediction := _generate_prediction risk_level in
  let insights := _generate_insights latitude longitude risk_level in
  let recommendations := _generate_recommendations risk_level in
  let safety_alert := _check_safety_alert risk_level confidence in
  let processing_time := elapsed E in
  Ok [("risk_level", JStr risk_level);
      ("confidence", JNum confidence);
      ("prediction", JStr prediction);
      ("insights", strs insights);
      ("recommendations", strs recommendations);
      ("safety_alert", safety_alert);
      ("model_version", JStr (model_version self));
      ("processing_time", JNum processing_time)].

Definition predict (E : env) (self : model)
           (latitude longitude accuracy : Q) (user_id : string) : pydict :=
  try_except
    (predict_try E self latitude longitude accuracy user_id)
    (fun _ => _get_fallback_result self).

Definition usage : string :=
  "Invalid arguments. Usage: python predict.py <latitude> <longitude> <accuracy> <user_id>".

Definition error_result (e : string) : pydict :=
  [("error", JStr e);
   ("risk_level", JStr "unknown");
   ("confidence", JNum 0.0);
   ("prediction", JStr "Error occurred");
   ("insights", strs ["Model error"]);
   ("recommendations", strs ["Please try again"]);
   ("safety_alert", JNull);
   ("model_version", JStr "1.0");
   ("processing_time", JNum 0.0)].

Definition main (E : env) (argv : list string) : json * nat :=
  if negb (length argv =? 5)%nat then (JObj [("error", JStr usage)], 1)
  else
    try_except
      (latitude <- parse_float E (nth 1 argv "") ;;
       longitude <- parse_float E (nth 2 argv "") ;;
       accuracy <- parse_float E (nth 3 argv "") ;;
       let user_id := nth 4 argv "" in
       let model := load_data (load_model init) "data.csv" in
       let result := predict E model latitude longitude accuracy user_id in
       Ok (JObj result, 0))
      (fun e => (JObj (error_result e), 1)).

End Template.

(* ===================================================================== *)
(** ** The specification's own words *)
(* ===================================================================== *)

Module Spec.

(** The fixed keyword set of the match rule. *)
Definition keyword_set : list string :=
  ["protest"; "riot"; "unrest"; "violence"; "flood"; "cyclone";
   "disaster"; "scam"; "theft"; "robbery"; "accident"].

(** [s] occurs in [t] as a substring. *)
Definition substring_of (s t : string) : Prop :=
  exists pre post, t = pre ++ s ++ post.

(** The match rule: the lower-cased title contains a keyword of the set
    and contains the lower-cased district name. *)
Definition threat_match (title district : string) : Prop :=
  (exists keyword, In keyword keyword_set
                   /\ substring_of keyword (lower title))
  /\ substring_of (lower district) (lower title).

(** The documented fields of an AssessmentResult, in order. *)
Definition assessment_fields : list string :=
  ["risk_level"; "confidence"; "prediction"; "insights";
   "recommendations"; "safety_alert"; "model_version";
   "processing_time"; "district"; "threats_detected"; "threat_details"].

End Spec.

(* ===================================================================== *)
(** ** The parts of the loop body, named for the proofs *)
(* ===================================================================== *)

Import Predict.

(** [article.get('title', '')] *)
Definition title_of (a : article) : string :=
  match art_title a with Some t => t | None => "" end.

(** The entry the loop appends for an article. *)
Definition entry_of (district_name : string) (a : article) : threat :=
  {| t_title := title_of a;
     t_source := match art_source a with
                 | Some source => src_name source
                 | None => None
                 end;
     t_url := art_url a;
     t_district := district_name |}.

(** The condition of the loop's [if]. *)
Definition matches (district_name : string) (a : article) : bool :=
  existsb (fun keyword => str_in keyword (lower (title_of a))) THREAT_KEYWORDS
  && str_in (lower district_name) (lower (title_of a)).

(* ===================================================================== *)
(** ** Reading a printed result *)
(* ===================================================================== *)

(** A field of a result object. *)
Definition field (k : string) (r : pydict) : option json := dict_get k r.

(** A field of a nested object, such as the alert or one threat entry. *)
Definition subfield (k : string) (v : json) : option json :=
  match v with
  | JObj fields => dict_get k fields
  | _ => None
  end.

(** The field names of a printed object, in the order printed. *)
Definition printed_keys (out : json) : list string :=
  match out with
  | JObj fields => keys fields
  | _ => []
  end.

(** The arguments after the program name convert with [float]. *)
Definition numeric_args (parse : string -> exc Q) (argv : list string) : Prop :=
  exists latitude longitude accuracy,
    parse (nth 1 argv "") = Ok latitude
    /\ parse (nth 2 argv "") = Ok longitude
    /\ parse (nth 3 argv "") = Ok accuracy.

(* ===================================================================== *)
(** ** Sample environments *)
(* ===================================================================== *)

Module Sample.

(** A geocoder that answers every coordinate with the given city. *)
Definition geocoder (city : string) (lat lon : Q) : exc (option location) :=
  Ok (Some {| raw_address := Some [("city", city)] |}).

(** A geocoder that finds nothing. *)
Definition no_location (lat lon : Q) : exc (option location) := Ok None.

(** [float] on the handful of strings the samples use. *)
Definition float_of (s : string) : exc Q :=
  if String.eqb s "19.07" then Ok 19.07%Q
  else if String.eqb s "72.87" then Ok 72.87%Q
  else if String.eqb s "10" then Ok 10%Q
  else Raise ("could not convert string to float: '" ++ s ++ "'").

(** The profile file is absent. *)
Definition world (rev : Q -> Q -> exc (option location)) : Predict.env :=
  {| reverse := rev;
     profile_file := None;
     elapsed := 0.001%Q;
     parse_float := float_of |}.

Definition template_world : Template.env :=
  {| Template.elapsed := 0.001%Q; Template.parse_float := float_of |}.

Definition argv : list string := ["predict.py"; "19.07"; "72.87"; "10"; "u1"].

End Sample.

(* ===================================================================== *)
(** ** Further names for the parts of the methods *)
(* ===================================================================== *)

(** The address components that [get_district_from_coordinates] tries, in
    the order of its [or] chain. *)
Definition district_keys : list string :=
  ["city_district"; "suburb"; "city"; "county"; "state_district"].

(** The three [replace] calls on an attribute value. *)
Definition clean_value (value : string) : string :=
  remove_char "'" (remove_char "]" (remove_char "[" value)).

(** The items of a row that the formatting loop renders. *)
Definition displayable (kv : string * cell) : bool :=
  match kv with
  | (key, Some _) => negb (String.eqb key "District")
  | (_, None) => false
  end.

(** The line the formatting loop adds for an item. *)
Definition line_of (kv : string * cell) : string :=
  match kv with
  | (key, Some value) =>
      newline ++ "- " ++ title (replace_char "_" " " key) ++ ": "
        ++ clean_value value
  | (_, None) => ""
  end.

(** The history line of the insights. *)
Definition historical_line : string :=
  "Historical threat data available for this district".
Definition limited_line : string :=
  "Limited historical threat data for this district".

(** Where the history line sits among the insights. *)
Definition history_index (ts : list threat) : nat :=
  if (0 <? length ts)%nat then 2 + length ts else 2.

(** The example area of the template's [_calculate_risk_level]. *)
Definition in_example_area (lat lng : Q) : bool :=
  leb 23.0 lat && leb lat 23.1 && leb 72.5 lng && leb lng 72.6.

(* ===================================================================== *)
(** ** Substring search *)
(* ===================================================================== *)

Lemma prefix_iff_append (s t : string) :
  prefix s t = true <-> exists post, t = s ++ post.
Proof.
  revert t; induction s as [|a s IH]; intros t.
  - split; [intros _; exists t; reflexivity | now destruct t].
  - destruct t as [|b t]; simpl.
    + split; [discriminate | intros [post H]; discriminate].
    + destruct (ascii_dec a b) as [->|Hab].
      * rewrite IH. split; intros [post H]; exists post.
        -- now rewrite H.
        -- now injection H.
      * split; [discriminate | intros [post H]; injection H; intros; congruence].
Qed.

Lemma str_in_nil (s : string) : str_in s "" = prefix s "".
Proof. now destruct s. Qed.

Lemma str_in_cons (s : string) (c : ascii) (t : string) :
  str_in s (String c t) = prefix s (String c t) || str_in s t.
Proof.
  change (str_in s (String c t))
    with (if prefix s (String c t) then true else str_in s t).
  now destruct (prefix s (String c t)).
Qed.

Lemma str_in_iff_substring (s t : string) :
  str_in s t = true <-> Spec.substring_of s t.
Proof.
  induction t as [|c t IH].
  - rewrite str_in_nil, prefix_iff_append. split.
    + intros [post H]. now exists "", post.
    + intros [pre [post H]]. destruct pre; [now exists post | discriminate].
  - rewrite str_in_cons, orb_true_iff, IH, prefix_iff_append. split.
    + intros [[post H] | [pre [post H]]].
      * now exists "", post.
      * exists (String c pre), post. simpl. now rewrite H.
    + intros [pre [post H]]. destruct pre as [|c' pre].
      * left. now exists post.
      * right. simpl in H. injection H as _ H. now exists pre, post.
Qed.

Lemma keyword_hit_iff (title : string) :
  existsb (fun keyword => str_in keyword (lower title)) Predict.THREAT_KEYWORDS = true
  <-> exists keyword, In keyword Spec.keyword_set
                      /\ Spec.substring_of keyword (lower title).
Proof.
  rewrite existsb_exists. change Predict.THREAT_KEYWORDS with Spec.keyword_set.
  split; intros [k [Hin Hk]]; exists k; split; auto;
    now apply str_in_iff_substring.
Qed.

(* ===================================================================== *)
(** ** The scan of the signal list *)
(* ===================================================================== *)

Lemma scan_article_step (d : string) (acc : list threat) (a : article) :
  scan_article d acc a =
    (acc ++ (if matches d a then [entry_of d a] else []))%list.
Proof.
  unfold scan_article, matches, entry_of, title_of, append.
  destruct (_ && _); [reflexivity | now rewrite app_nil_r].
Qed.

Lemma scan_from (d : string) (news : list article) (acc : list threat) :
  fold_left (scan_article d) news acc =
    (acc ++ map (entry_of d) (filter (matches d) news))%list.
Proof.
  revert acc; induction news as [|a news IH]; intros acc; simpl.
  - now rewrite app_nil_r.
  - rewrite IH, scan_article_step.
    destruct (matches d a); simpl.
    + now rewrite <- app_assoc.
    + now rewrite app_nil_r.
Qed.

Lemma detect_threats_filter (news : list article) (d : string) :
  detect_threats news d = map (entry_of d) (filter (matches d) news).
Proof. unfold detect_threats. now rewrite scan_from. Qed.

Lemma matches_iff (d : string) (a : article) :
  matches d a = true <-> Spec.threat_match (title_of a) d.
Proof.
  unfold matches, Spec.threat_match.
  now rewrite andb_true_iff, keyword_hit_iff, str_in_iff_substring.
Qed.


(* ===================================================================== *)
(** ** What [analyze_threats] returns *)
(* ===================================================================== *)

Section Analysis.

Variables (E : env) (self : model).
Variables (latitude longitude accuracy : Q) (user_id : string).

Let resolved := get_district_from_coordinates E latitude longitude.
Let attempt := analyze_threats_try E self latitude longitude accuracy user_id.
Let result := analyze_threats E self latitude longitude accuracy user_id.

Lemma Ok_inj (A : Type) (a b : A) : Ok a = Ok b -> a = b.
Proof. now intros [= ->]. Qed.

Lemma truthy_iff (o : option string) :
  truthy o = true <-> exists d, o = Some d /\ d <> "".
Proof.
  destruct o as [[|c d]|]; simpl; split;
    try discriminate; try (intros [d' [H1 H2]]; congruence).
  intros _. eexists; split; [reflexivity | discriminate].
Qed.

(** District resolution failed: the first [return] of the [try] block. *)
Lemma attempt_unresolved :
  truthy resolved = false ->
  attempt = Ok (_get_fallback_result self
                  "Could not determine district from coordinates").
Proof.
  unfold attempt, analyze_threats_try, resolved.
  destruct (get_district_from_coordinates E latitude longitude) as [[|c d]|];
    intros Ht; [reflexivity | discriminate Ht | reflexivity].
Qed.

(** District resolved: the last [return] of the [try] block. *)
Lemma attempt_resolved (d : string) :
  resolved = Some d -> d <> "" ->
  attempt =
    Ok (let ts := detect_threats get_mock_news_articles d in
        let risk_level :=
          if (0 <? length ts)%nat then
            (if (2 <=? length ts)%nat then "high" else "medium")
          else "low" in
        let confidence :=
          if (0 <? length ts)%nat then
            (if (2 <=? length ts)%nat then 0.9%Q else 0.8%Q)
          else 0.7%Q in
        [("risk_level", JStr risk_level);
         ("confidence", JNum confidence);
         ("prediction", JStr (_generate_prediction d risk_level ts));
         ("insights",
          strs (_generate_insights d ts (get_district_threats self (Some d))));
         ("recommendations", strs (_generate_recommendations risk_level ts));
         ("safety_alert", _check_safety_alert risk_level ts);
         ("model_version", JStr (model_version self));
         ("processing_time", JNum (elapsed E));
         ("district", JStr d);
         ("threats_detected", JInt (length ts));
         ("threat_details", JList (map (fun t => JObj (threat_dict t)) ts))]).
Proof.
  unfold attempt, analyze_threats_try, resolved. intros -> Hd.
  destruct d as [|c d]; [congruence | reflexivity].
Qed.

(** No step of the [try] block raises. *)
Lemma attempt_returns : exists r, attempt = Ok r.
Proof.
  destruct (truthy resolved) eqn:Ht.
  - apply truthy_iff in Ht as [d [Hd Hne]].
    rewrite (attempt_resolved d Hd Hne). eexists; reflexivity.
  - rewrite (attempt_unresolved Ht). eexists; reflexivity.
Qed.

Lemma result_of_attempt (r : pydict) : attempt = Ok r -> result = r.
Proof. unfold result, analyze_threats, attempt. now intros ->. Qed.

End Analysis.

(* ===================================================================== *)
(** ** Risk level, confidence and alert *)
(* ===================================================================== *)

(** C1. On a successful classifier run (the district resolved and the
    [try] block returned), the risk level and the confidence are decided
    by the match count [n] alone: [n = 0] gives low and 0.7, [n = 1] gives
    medium and 0.8, [n >= 2] gives high and 0.9. *)
Theorem risk_and_confidence_by_match_count :
  forall (E : env) (self : model) (latitude longitude accuracy : Q)
         (user_id : string) (r : pydict),
    truthy (get_district_from_coordinates E latitude longitude) = true ->
    analyze_threats_try E self latitude longitude accuracy user_id = Ok r ->
    analyze_threats E self latitude longitude accuracy user_id = r
    /\ exists n,
         field "threats_detected" r = Some (JInt n)
         /\ (n = 0 ->
             field "risk_level" r = Some (JStr "low")
             /\ field "confidence" r = Some (JNum 0.7))
         /\ (n = 1 ->
             field "risk_level" r = Some (JStr "medium")
             /\ field "confidence" r = Some (JNum 0.8))
         /\ (2 <= n ->
             field "risk_level" r = Some (JStr "high")
             /\ field "confidence" r = Some (JNum 0.9)).
Proof.
  intros E self lat lon acc uid r Ht Hr.
  split; [now apply result_of_attempt |].
  apply truthy_iff in Ht as [d [Hd Hne]].
  rewrite (attempt_resolved E self lat lon acc uid d Hd Hne) in Hr.
  apply Ok_inj in Hr. subst r. cbv zeta.
  generalize (detect_threats get_mock_news_articles d) as ts. intros ts.
  exists (length ts). split; [reflexivity |].
  destruct ts as [|t1 [|t2 ts]]; cbn [length];
    repeat split; intros; try lia; reflexivity.
Qed.

Lemma risk_and_confidence_by_match_count_witness :
  let E := Sample.world (Sample.geocoder "Mumbai") in
  let r := analyze_threats E init 19.07 72.87 10 "u1" in
  truthy (get_district_from_coordinates E 19.07 72.87) = true
  /\ analyze_threats_try E init 19.07 72.87 10 "u1" = Ok r
  /\ field "threats_detected" r = Some (JInt 1)
  /\ exists n,
       field "threats_detected" r = Some (JInt n)
       /\ (n = 0 ->
           field "risk_level" r = Some (JStr "low")
           /\ field "confidence" r = Some (JNum 0.7))
       /\ (n = 1 ->
           field "risk_level" r = Some (JStr "medium")
           /\ field "confidence" r = Some (JNum 0.8))
       /\ (2 <= n ->
           field "risk_level" r = Some (JStr "high")
           /\ field "confidence" r = Some (JNum 0.9)).
Proof.
  intros E r.
  split; [reflexivity |]. split; [reflexivity |]. split; [reflexivity |].
  exact (proj2 (risk_and_confidence_by_match_count
                  E init 19.07 72.87 10 "u1" r eq_refl eq_refl)).
Defined.

(** The three rows of the decision on the mock headlines: no headline
    mentions Pune, one mentions Mumbai, and four contain the letters of a
    district called In. *)
Example pune_is_low :
  let r := analyze_threats (Sample.world (Sample.geocoder "Pune")) init
                           19.07 72.87 10 "u1" in
  field "threats_detected" r = Some (JInt 0)
  /\ field "risk_level" r = Some (JStr "low")
  /\ field "confidence" r = Some (JNum 0.7)
  /\ field "safety_alert" r = Some JNull.
Proof. repeat split. Qed.

Example mumbai_is_medium :
  let r := analyze_threats (Sample.world (Sample.geocoder "Mumbai")) init
                           19.07 72.87 10 "u1" in
  field "threats_detected" r = Some (JInt 1)
  /\ field "risk_level" r = Some (JStr "medium")
  /\ field "confidence" r = Some (JNum 0.8)
  /\ subfield "severity" (match field "safety_alert" r with
                           | Some alert => alert
                           | None => JNull
                           end) = Some (JStr "medium").
Proof. repeat split. Qed.

Example substring_district_is_high :
  let r := analyze_threats (Sample.world (Sample.geocoder "In")) init
                           19.07 72.87 10 "u1" in
  field "threats_detected" r = Some (JInt 4)
  /\ field "risk_level" r = Some (JStr "high")
  /\ field "confidence" r = Some (JNum 0.9)
  /\ subfield "severity" (match field "safety_alert" r with
                           | Some alert => alert
                           | None => JNull
                           end) = Some (JStr "high").
Proof. repeat split. Qed.

(** C5. In every result the alert is null exactly when the match count is
    0; with a positive count the level is high or medium, and the alert's
    type and severity are [high_risk_area]/[high] for level high and
    [moderate_risk]/[medium] for level medium.  The hard-error object of
    [main] has a null alert and a count of 0 as well. *)
Theorem alert_null_iff_no_match :
  (forall (E : env) (self : model) (latitude longitude accuracy : Q)
          (user_id : string),
     let r := analyze_threats E self latitude longitude accuracy user_id in
     exists n alert,
       field "threats_detected" r = Some (JInt n)
       /\ field "safety_alert" r = Some alert
       /\ (alert = JNull <-> n = 0)
       /\ (0 < n ->
           (field "risk_level" r = Some (JStr "high")
            /\ subfield "type" alert = Some (JStr "high_risk_area")
            /\ subfield "severity" alert = Some (JStr "high"))
           \/
           (field "risk_level" r = Some (JStr "medium")
            /\ subfield "type" alert = Some (JStr "moderate_risk")
            /\ subfield "severity" alert = Some (JStr "medium"))))
  /\ (forall e : string,
        field "threats_detected" (error_result e) = Some (JInt 0)
        /\ field "safety_alert" (error_result e) = Some JNull).
Proof.
  split; [| intros e; split; reflexivity].
  intros E self lat lon acc uid r.
  destruct (truthy (get_district_from_coordinates E lat lon)) eqn:Ht.
  - apply truthy_iff in Ht as [d [Hd Hne]].
    assert (Hr := attempt_resolved E self lat lon acc uid d Hd Hne).
    apply result_of_attempt in Hr. subst r. rewrite Hr. cbv zeta.
    generalize (detect_threats get_mock_news_articles d) as ts. intros ts.
    exists (length ts). eexists. split; [reflexivity |]. split; [reflexivity |].
    destruct ts as [|t1 [|t2 ts]]; cbn [length].
    + split; [split; reflexivity | intros H; inversion H].
    + split; [split; discriminate |].
      intros _. right. repeat split.
    + split; [split; discriminate |].
      intros _. left. repeat split.
  - assert (Hr := attempt_unresolved E self lat lon acc uid Ht).
    apply result_of_attempt in Hr. subst r. rewrite Hr.
    exists 0, JNull. split; [reflexivity |]. split; [reflexivity |].
    split; [split; reflexivity | intros H; inversion H].
Qed.

(** Split on whether the district resolved, and replace the result by the
    dictionary returned on that path. *)
Ltac by_resolution E self lat lon acc uid d Hd Hne Ht :=
  let Hr := fresh "Hr" in
  destruct (truthy (get_district_from_coordinates E lat lon)) eqn:Ht;
  [ destruct (proj1 (truthy_iff _) Ht) as [d [Hd Hne]];
    assert (Hr := attempt_resolved E self lat lon acc uid d Hd Hne)
  | assert (Hr := attempt_unresolved E self lat lon acc uid Ht) ];
  pose proof Hr as Hattempt;
  apply result_of_attempt in Hr; rewrite Hr; clear Hr; cbv zeta.

(* ===================================================================== *)
(** ** Invariants of the printed result *)
(* ===================================================================== *)

(** C6. In every result the program can print with four arguments (a
    classification, the fallback, or the hard-error object)
    [threats_detected] is the length of [threat_details]; the same holds
    of every result of [analyze_threats], whatever the model object. *)
Theorem threats_detected_is_length :
  forall (E : env) (argv : list string),
    length argv = 5 ->
    (exists r n details,
       fst (main E argv) = JObj r
       /\ field "threats_detected" r = Some (JInt n)
       /\ field "threat_details" r = Some (JList details)
       /\ n = length details)
    /\ (forall (self : model) (latitude longitude accuracy : Q)
               (user_id : string),
          exists n details,
            field "threats_detected"
                  (analyze_threats E self latitude longitude accuracy user_id)
            = Some (JInt n)
            /\ field "threat_details"
                     (analyze_threats E self latitude longitude accuracy user_id)
               = Some (JList details)
            /\ n = length details).
Proof.
  intros E argv Hlen.
  assert (Hana : forall self lat lon acc uid,
             exists n details,
               field "threats_detected" (analyze_threats E self lat lon acc uid)
               = Some (JInt n)
               /\ field "threat_details" (analyze_threats E self lat lon acc uid)
                  = Some (JList details)
               /\ n = length details).
  { intros self lat lon acc uid.
    by_resolution E self lat lon acc uid d Hd Hne Ht.
    - do 2 eexists. split; [reflexivity |]. split; [reflexivity |].
      now rewrite length_map.
    - exists 0, []. repeat split. }
  split; [| exact Hana].
  unfold main. rewrite Hlen. cbn [Nat.eqb negb].
  destruct (parse_float E (nth 1 argv "")) as [lat | e];
    [| exists (error_result e), 0, []; repeat split].
  destruct (parse_float E (nth 2 argv "")) as [lon | e];
    [| exists (error_result e), 0, []; repeat split].
  destruct (parse_float E (nth 3 argv "")) as [acc | e];
    [| exists (error_result e), 0, []; repeat split].
  cbn [bind try_except fst].
  destruct (Hana (load_model E init) lat lon acc (nth 4 argv ""))
    as [n [details H]].
  now exists (analyze_threats E (load_model E init) lat lon acc (nth 4 argv "")),
             n, details.
Qed.

Lemma threats_detected_is_length_witness :
  let E := Sample.world (Sample.geocoder "Mumbai") in
  length Sample.argv = 5
  /\ exists r n details,
       fst (main E Sample.argv) = JObj r
       /\ field "threats_detected" r = Some (JInt n)
       /\ field "threat_details" r = Some (JList details)
       /\ n = length details.
Proof.
  intros E. split; [reflexivity |].
  exact (proj1 (threats_detected_is_length E Sample.argv eq_refl)).
Defined.


(** C10. The confidence of every result of [analyze_threats] is one of
    0.0, 0.7, 0.8 and 0.9, and it is zero exactly when the risk level is
    [unknown]. *)
Theorem confidence_values :
  forall (E : env) (self : model) (latitude longitude accuracy : Q)
         (user_id : string),
    let r := analyze_threats E self latitude longitude accuracy user_id in
    exists c,
      field "confidence" r = Some (JNum c)
      /\ (c = 0.0%Q \/ c = 0.7%Q \/ c = 0.8%Q \/ c = 0.9%Q)
      /\ ((c == 0)%Q <-> field "risk_level" r = Some (JStr "unknown")).
Proof.
  intros E self lat lon acc uid r. subst r.
  by_resolution E self lat lon acc uid d Hd Hne Ht.
  - generalize (detect_threats get_mock_news_articles d) as ts. intros ts.
    eexists. split; [reflexivity |].
    destruct ts as [|t1 [|t2 ts]]; cbn [length Nat.ltb Nat.leb];
      (split; [tauto | split; [intros H; inversion H | discriminate]]).
  - exists 0.0%Q. split; [reflexivity |]. split; [now left |].
    split; reflexivity.
Qed.

(* ===================================================================== *)
(** ** The match rule and the threat details *)
(* ===================================================================== *)

(** C2. The scan treats the articles one by one; an article adds its
    entry to the matches exactly when its lower-cased title contains a
    keyword of the fixed set and contains the lower-cased district name.
    The Mumbai protest headline is one match for district Mumbai and the
    Delhi flood headline is none. *)
Theorem match_iff_keyword_and_district :
  (forall (news : list article) (district : string),
     detect_threats news district
     = flat_map (fun a => detect_threats [a] district) news)
  /\ (forall (a : article) (district : string),
        (detect_threats [a] district = [entry_of district a]
         <-> Spec.threat_match (title_of a) district)
        /\ (detect_threats [a] district = []
            <-> ~ Spec.threat_match (title_of a) district))
  /\ length (detect_threats
               [mk_article "Mumbai traffic chaos due to political protest"
                           "Local Times" "https://example.com/mumbai-protest"]
               "Mumbai") = 1
  /\ detect_threats
       [mk_article "Heavy rains and flood warnings issued for Delhi"
                   "Indian News" "https://example.com/delhi-flood"]
       "Mumbai" = [].
Proof.
  split; [| split; [| split; reflexivity]].
  - intros news d. rewrite detect_threats_filter.
    induction news as [|a news IH]; [reflexivity |].
    cbn [flat_map filter]. rewrite <- IH, detect_threats_filter.
    cbn [filter]. now destruct (matches d a).
  - intros a d. rewrite detect_threats_filter, <- matches_iff. cbn [filter].
    destruct (matches d a); cbn [map]; split; split;
      congruence || discriminate || reflexivity.
Qed.

(** C9. Every entry of [threat_details] carries the district that the
    result reports in its own [district] field, and the entries are the
    matching articles of the signal list, in the order of that list. *)
Theorem threat_details_district_and_order :
  forall (E : env) (self : model) (latitude longitude accuracy : Q)
         (user_id : string),
    let r := analyze_threats E self latitude longitude accuracy user_id in
    exists details,
      field "threat_details" r = Some (JList details)
      /\ (forall t, In t details -> subfield "district" t = field "district" r)
      /\ ((truthy (get_district_from_coordinates E latitude longitude) = false
           /\ details = [])
          \/ exists d,
               get_district_from_coordinates E latitude longitude = Some d
               /\ field "district" r = Some (JStr d)
               /\ details
                  = map (fun a => JObj (threat_dict (entry_of d a)))
                        (filter (matches d) get_mock_news_articles)).
Proof.
  intros E self lat lon acc uid r. subst r.
  by_resolution E self lat lon acc uid d Hd Hne Ht.
  - eexists. split; [reflexivity |]. split.
    + intros t Hin. apply in_map_iff in Hin as [x [<- Hx]].
      rewrite detect_threats_filter in Hx.
      apply in_map_iff in Hx as [a [<- _]]. reflexivity.
    + right. exists d. split; [exact Hd |]. split; [reflexivity |].
      now rewrite detect_threats_filter, map_map.
  - exists []. split; [reflexivity |]. split; [intros t [] | now left].
Qed.

(* ===================================================================== *)
(** ** The fallback and the command line *)
(* ===================================================================== *)

(** C8. When the four arguments are well formed and district resolution
    returns [None], [analyze_threats] returns the canonical fallback
    result, [main] prints exactly that object, and the exit status is 0. *)
Theorem unresolved_district_prints_fallback :
  forall (E : env) (argv : list string) (latitude longitude accuracy : Q),
    length argv = 5 ->
    parse_float E (nth 1 argv "") = Ok latitude ->
    parse_float E (nth 2 argv "") = Ok longitude ->
    parse_float E (nth 3 argv "") = Ok accuracy ->
    get_district_from_coordinates E latitude longitude = None ->
    let canonical :=
      [("risk_level", JStr "unknown");
       ("confidence", JNum 0.0);
       ("prediction",
        JStr "Analysis failed: Could not determine district from coordinates");
       ("insights", JList [JStr "Unable to analyze location";
                           JStr "Please try again"]);
       ("recommendations", JList [JStr "Use general safety precautions";
                                  JStr "Stay alert"]);
       ("safety_alert", JNull);
       ("model_version", JStr "1.0");
       ("processing_time", JNum 0.0);
       ("district", JStr "Unknown");
       ("threats_detected", JInt 0);
       ("threat_details", JList [])] in
    analyze_threats E (load_model E init) latitude longitude accuracy
                    (nth 4 argv "") = canonical
    /\ main E argv = (JObj canonical, 0).
Proof.
  intros E argv lat lon acc Hlen H1 H2 H3 Hnone canonical.
  assert (Hver : model_version (load_model E init) = "1.0").
  { unfold load_model. now destruct (profile_file E) as [[df | e] |]. }
  assert (Hres : analyze_threats E (load_model E init) lat lon acc (nth 4 argv "")
                 = canonical).
  { apply result_of_attempt. rewrite attempt_unresolved by now rewrite Hnone.
    unfold _get_fallback_result. now rewrite Hver. }
  split; [exact Hres |].
  unfold main. rewrite Hlen, H1, H2, H3. cbn [Nat.eqb negb bind try_except].
  now rewrite Hres.
Qed.

Lemma unresolved_district_prints_fallback_witness :
  let E := Sample.world Sample.no_location in
  length Sample.argv = 5
  /\ get_district_from_coordinates E 19.07 72.87 = None
  /\ snd (main E Sample.argv) = 0
  /\ printed_keys (fst (main E Sample.argv)) = Spec.assessment_fields.
Proof.
  intros E.
  pose proof (unresolved_district_prints_fallback
                E Sample.argv 19.07 72.87 10
                eq_refl eq_refl eq_refl eq_refl eq_refl) as [_ Hmain].
  split; [reflexivity |]. split; [reflexivity |].
  rewrite Hmain. split; reflexivity.
Defined.

(** C4, as the code has it.  [analyze_threats] always returns exactly the
    eleven documented fields, while [predict] of the templated script
    always returns exactly the first eight of them; the hard-error object
    of either script has the same fields after an extra [error] field.
    With four arguments that convert to floats, that is what each script
    prints. *)
Theorem printed_fields_of_each_script :
  forall (E : Predict.env) (T : Template.env) (argv : list string),
    length argv = 5 ->
    numeric_args (parse_float E) argv ->
    numeric_args (Template.parse_float T) argv ->
    printed_keys (fst (main E argv)) = Spec.assessment_fields
    /\ printed_keys (fst (Template.main T argv))
       = firstn 8 Spec.assessment_fields
    /\ (forall self latitude longitude accuracy user_id,
          keys (analyze_threats E self latitude longitude accuracy user_id)
          = Spec.assessment_fields)
    /\ (forall self latitude longitude accuracy user_id,
          keys (Template.predict T self latitude longitude accuracy user_id)
          = firstn 8 Spec.assessment_fields)
    /\ (forall e, keys (error_result e) = "error" :: Spec.assessment_fields)
    /\ (forall e, keys (Template.error_result e)
                  = "error" :: firstn 8 Spec.assessment_fields).
Proof.
  intros E T argv Hlen [lat [lon [acc [H1 [H2 H3]]]]]
         [lat' [lon' [acc' [H1' [H2' H3']]]]].
  assert (Hana : forall self latitude longitude accuracy user_id,
             keys (analyze_threats E self latitude longitude accuracy user_id)
             = Spec.assessment_fields).
  { intros self la lo ac uid.
    by_resolution E self la lo ac uid d Hd Hne Ht; reflexivity. }
  assert (Hpre : forall self latitude longitude accuracy user_id,
             keys (Template.predict T self latitude longitude accuracy user_id)
             = firstn 8 Spec.assessment_fields) by reflexivity.
  repeat split; try assumption.
  - unfold main. rewrite Hlen, H1, H2, H3.
    cbn [Nat.eqb negb bind try_except fst printed_keys]. apply Hana.
  - unfold Template.main. rewrite Hlen, H1', H2', H3'.
    cbn [Nat.eqb negb bind try_except fst printed_keys]. apply Hpre.
Qed.

Lemma printed_fields_of_each_script_witness :
  length Sample.argv = 5
  /\ numeric_args Sample.float_of Sample.argv
  /\ printed_keys (fst (main (Sample.world (Sample.geocoder "Mumbai"))
                             Sample.argv))
     = Spec.assessment_fields
  /\ printed_keys (fst (Template.main Sample.template_world Sample.argv))
     = firstn 8 Spec.assessment_fields.
Proof.
  assert (Hnum : numeric_args Sample.float_of Sample.argv).
  { exists 19.07%Q, 72.87%Q, 10%Q. repeat split. }
  split; [reflexivity |]. split; [exact Hnum |].
  destruct (printed_fields_of_each_script
              (Sample.world (Sample.geocoder "Mumbai")) Sample.template_world
              Sample.argv eq_refl Hnum Hnum) as [Hw [Ht _]].
  split; [exact Hw | exact Ht].
Defined.

(** The templated script, run on well-formed arguments, prints an object
    that does not have the documented fields: [district],
    [threats_detected] and [threat_details] are missing. *)
Lemma template_output_lacks_fields :
  ~ (printed_keys (fst (Template.main Sample.template_world Sample.argv))
     = Spec.assessment_fields).
Proof. discriminate. Qed.

(* ===================================================================== *)
(** ** The insight lines *)
(* ===================================================================== *)

Lemma fold_append (A B : Type) (f : B -> A) (l : list B) (acc : list A) :
  fold_left (fun acc x => append acc (f x)) l acc = (acc ++ map f l)%list.
Proof.
  revert acc; induction l as [|x l IH]; intros acc; simpl.
  - now rewrite app_nil_r.
  - rewrite IH. unfold append. now rewrite <- app_assoc.
Qed.

(** The lines of [_generate_insights], group by group. *)
Lemma insights_shape (d : string) (ts : list threat) (profile : string) :
  _generate_insights d ts profile =
    ("Analyzing safety conditions in " ++ d)
    :: List.app
         (if (0 <? length ts)%nat
          then ("Found " ++ str_of_nat (length ts)
                         ++ " active threat(s) in the area")
               :: map (fun t => "Active threat: " ++ t_title t) ts
          else ["No active threats detected in recent news"])
         [if negb (str_in "No specific threat data" profile)
          then "Historical threat data available for this district"
          else "Limited historical threat data for this district";
          "Analysis based on real-time news and historical data"].
Proof.
  unfold _generate_insights.
  destruct (0 <? length ts)%nat;
    destruct (negb (str_in "No specific threat data" profile));
    rewrite ?fold_append; unfold append; cbn [app];
    rewrite <- ?app_assoc; reflexivity.
Qed.

(** The line about historical data sits after the lines about threats,
    and it reads "Limited" exactly when the profile text contains
    [No specific threat data]. *)
Lemma history_line (d : string) (ts : list threat) (profile : string) :
  nth_error (_generate_insights d ts profile)
            (if (0 <? length ts)%nat then 2 + length ts else 2)
  = Some (if str_in "No specific threat data" profile
          then "Limited historical threat data for this district"
          else "Historical threat data available for this district").
Proof.
  rewrite insights_shape.
  destruct (str_in "No specific threat data" profile); cbn [negb];
    (destruct ts as [|t ts]; [reflexivity |]);
    cbn [length Nat.ltb Nat.leb Nat.add nth_error app map];
    (rewrite nth_error_app2; rewrite length_map; [| lia]);
    now rewrite Nat.sub_diag.
Qed.

(** Without a loaded table the lookup answers with a sentinel that the
    insight test does not recognise. *)
Lemma unloaded_table_sentinel (self : model) (d : option string) :
  threat_profiles_df self = None ->
  get_district_threats self d = "No threat data available"
  /\ str_in "No specific threat data" (get_district_threats self d) = false.
Proof.
  intros H. unfold get_district_threats. rewrite H. now split.
Qed.

(** A loaded table, by contrast, is rendered attribute by attribute, and a
    district without a row gets the sentinel that the insight test does
    recognise. *)
Example loaded_table_lookup :
  let self :=
    {| model_loaded := true;
       data_loaded := false;
       model_version := "1.0";
       threat_profiles_df :=
         Some [[("District", Some "Mumbai");
                ("crime_rate", Some "['high']");
                ("flood_risk", None)]] |} in
  get_district_threats self (Some "MUMBAI")
  = newline ++ "- Crime Rate: high"
  /\ get_district_threats self (Some "mumbai")
     = get_district_threats self (Some "MUMBAI")
  /\ get_district_threats self (Some "Pune")
     = "No specific threat data available for this district"
  /\ nth_error (_generate_insights "Pune" []
                  (get_district_threats self (Some "Pune"))) 2
     = Some "Limited historical threat data for this district".
Proof. repeat split. Qed.

(** C3, at the failing input.  The profile file is absent, so the table is
    never loaded and the lookup returns its no-data sentinel; the district
    resolves to Pune, which no headline mentions.  The third insight line
    nevertheless reads "Historical threat data available", and so does
    the history line of every run without a loaded table. *)
Theorem unloaded_table_reports_historical_data :
  (let E := Sample.world (Sample.geocoder "Pune") in
   let self := load_model E init in
   threat_profiles_df self = None
   /\ get_district_threats self (Some "Pune") = "No threat data available"
   /\ field "insights" (analyze_threats E self 19.07 72.87 10 "u1")
      = Some (strs ["Analyzing safety conditions in Pune";
                    "No active threats detected in recent news";
                    "Historical threat data available for this district";
                    "Analysis based on real-time news and historical data"]))
  /\ (forall (self : model) (d : string) (ts : list threat),
        threat_profiles_df self = None ->
        nth_error (_generate_insights d ts (get_district_threats self (Some d)))
                  (if (0 <? length ts)%nat then 2 + length ts else 2)
        = Some "Historical threat data available for this district").
Proof.
  split; [repeat split |].
  intros self d ts Hdf. rewrite history_line.
  destruct (unloaded_table_sentinel self (Some d) Hdf) as [_ Hno].
  now rewrite Hno.
Qed.

(* ===================================================================== *)
(** ** Reverse geocoding *)
(* ===================================================================== *)

Lemma district_chain (E : env) (lat lon : Q) (loc : location) (a : address) :
  reverse E lat lon = Ok (Some loc) -> raw_address loc = Some a -> a <> [] ->
  get_district_from_coordinates E lat lon
  = py_or (dict_get "city_district" a)
      (py_or (dict_get "suburb" a)
         (py_or (dict_get "city" a)
            (py_or (dict_get "county" a) (dict_get "state_district" a)))).
Proof.
  intros Hrev Haddr Hne. unfold get_district_from_coordinates.
  rewrite Hrev. cbn [bind]. rewrite Haddr.
  destruct a as [|entry rest]; [congruence | reflexivity].
Qed.

(** X1. When the geocoder answers with a non-empty address, the district
    is the first non-empty one of [city_district], [suburb], [city],
    [county], [state_district]; the method yields a usable district exactly
    when one of the five is non-empty, and other address keys play no
    part. *)
Theorem district_is_first_nonempty_component :
  forall (E : env) (lat lon : Q) (loc : location) (a : address),
    reverse E lat lon = Ok (Some loc) ->
    raw_address loc = Some a ->
    a <> [] ->
    get_district_from_coordinates E lat lon
    = match find truthy (map (fun k => dict_get k a) district_keys) with
      | Some component => component
      | None => dict_get "state_district" a
      end
    /\ (truthy (get_district_from_coordinates E lat lon) = true
        <-> exists k, In k district_keys /\ truthy (dict_get k a) = true).
Proof.
  intros E lat lon loc a Hrev Haddr Hne.
  rewrite (district_chain E lat lon loc a Hrev Haddr Hne).
  unfold district_keys. cbn [map find]. unfold py_or.
  destruct (truthy (dict_get "city_district" a)) eqn:H1;
    [split; [reflexivity | split; [intros _; exists "city_district"; cbn; tauto | auto]] |].
  destruct (truthy (dict_get "suburb" a)) eqn:H2;
    [split; [reflexivity | split; [intros _; exists "suburb"; cbn; tauto | auto]] |].
  destruct (truthy (dict_get "city" a)) eqn:H3;
    [split; [reflexivity | split; [intros _; exists "city"; cbn; tauto | auto]] |].
  destruct (truthy (dict_get "county" a)) eqn:H4;
    [split; [reflexivity | split; [intros _; exists "county"; cbn; tauto | auto]] |].
  destruct (truthy (dict_get "state_district" a)) eqn:H5;
    [split; [reflexivity | split; [intros _; exists "state_district"; cbn; tauto | auto]] |].
  split; [reflexivity |]. split; [discriminate |].
  intros [k [Hk Ht]]. cbn in Hk.
  destruct Hk as [<- | [<- | [<- | [<- | [<- | []]]]]]; congruence.
Qed.

Lemma district_is_first_nonempty_component_witness :
  let a := [("road", "MG Road"); ("suburb", ""); ("county", "Pune District");
            ("city", "Pune")] in
  let E := Sample.world (fun _ _ => Ok (Some {| raw_address := Some a |})) in
  a <> []
  /\ get_district_from_coordinates E 19.07 72.87 = Some "Pune".
Proof.
  intros a E. split; [discriminate |].
  exact (proj1 (district_is_first_nonempty_component
                  E 19.07 72.87 {| raw_address := Some a |} a
                  eq_refl eq_refl
                  (fun H : a = [] => eq_ind a (fun l => match l with
                                                       | [] => False
                                                       | _ :: _ => True
                                                       end) I [] H))).
Defined.

(** X2. A geocoder that raises, finds no location, or answers without an
    address (or with an empty one) never fails the process: with
    well-formed arguments the script prints the fallback result and exits
    with status 0. *)
Theorem geocoder_failure_prints_fallback :
  forall (E : env) (argv : list string) (lat lon acc : Q),
    length argv = 5 ->
    parse_float E (nth 1 argv "") = Ok lat ->
    parse_float E (nth 2 argv "") = Ok lon ->
    parse_float E (nth 3 argv "") = Ok acc ->
    ((exists e, reverse E lat lon = Raise e)
     \/ reverse E lat lon = Ok None
     \/ (exists loc, reverse E lat lon = Ok (Some loc)
                     /\ (raw_address loc = None \/ raw_address loc = Some []))) ->
    get_district_from_coordinates E lat lon = None
    /\ main E argv
       = (JObj (_get_fallback_result
                  (load_model E init)
                  "Could not determine district from coordinates"), 0).
Proof.
  intros E argv lat lon acc Hlen H1 H2 H3 Hgeo.
  assert (Hnone : get_district_from_coordinates E lat lon = None).
  { unfold get_district_from_coordinates.
    destruct Hgeo as [[e ->] | [-> | [loc [-> [Ha | Ha]]]]];
      cbn [bind try_except]; try rewrite Ha; reflexivity. }
  split; [exact Hnone |].
  unfold main. rewrite Hlen, H1, H2, H3. cbn [Nat.eqb negb bind try_except].
  do 2 f_equal. f_equal.
  apply result_of_attempt. apply attempt_unresolved. now rewrite Hnone.
Qed.

Lemma geocoder_failure_prints_fallback_witness :
  let E := Sample.world (fun _ _ => Raise "Service timed out") in
  length Sample.argv = 5
  /\ get_district_from_coordinates E 19.07 72.87 = None
  /\ snd (main E Sample.argv) = 0.
Proof.
  intros E.
  destruct (geocoder_failure_prints_fallback
              E Sample.argv 19.07 72.87 10 eq_refl eq_refl eq_refl eq_refl
              (or_introl (ex_intro _ "Service timed out" eq_refl)))
    as [Hnone Hmain].
  split; [reflexivity |]. split; [exact Hnone |].
  now rewrite Hmain.
Defined.

(* ===================================================================== *)
(** ** The command line of both scripts *)
(* ===================================================================== *)

(** X3. Either script exits with status 0 exactly when it is given four
    arguments of which the first three convert with [float]; nothing the
    geocoder, the profile file or the classifier does changes the exit
    status. *)
Theorem exit_status_zero_iff :
  forall (E : Predict.env) (T : Template.env) (argv : list string),
    (snd (main E argv) = 0
     <-> length argv = 5 /\ numeric_args (parse_float E) argv)
    /\ (snd (Template.main T argv) = 0
        <-> length argv = 5 /\ numeric_args (Template.parse_float T) argv).
Proof.
  intros E T argv. unfold main, Template.main, numeric_args. split.
  - destruct (Nat.eqb_spec (length argv) 5) as [Hlen | Hlen]; cbn [negb].
    + destruct (parse_float E (nth 1 argv "")) as [a1 | e1];
        [| split; [discriminate | intros [_ [x [y [z [H _]]]]]; discriminate]].
      destruct (parse_float E (nth 2 argv "")) as [a2 | e2];
        [| split; [discriminate | intros [_ [x [y [z [_ [H _]]]]]]; discriminate]].
      destruct (parse_float E (nth 3 argv "")) as [a3 | e3];
        [| split; [discriminate | intros [_ [x [y [z [_ [_ H]]]]]]; discriminate]].
      split; [intros _ | reflexivity].
      split; [exact Hlen |]. now exists a1, a2, a3.
    + split; [discriminate | intros [H _]; contradiction].
  - destruct (Nat.eqb_spec (length argv) 5) as [Hlen | Hlen]; cbn [negb].
    + destruct (Template.parse_float T (nth 1 argv "")) as [a1 | e1];
        [| split; [discriminate | intros [_ [x [y [z [H _]]]]]; discriminate]].
      destruct (Template.parse_float T (nth 2 argv "")) as [a2 | e2];
        [| split; [discriminate | intros [_ [x [y [z [_ [H _]]]]]]; discriminate]].
      destruct (Template.parse_float T (nth 3 argv "")) as [a3 | e3];
        [| split; [discriminate | intros [_ [x [y [z [_ [_ H]]]]]]; discriminate]].
      split; [intros _ | reflexivity].
      split; [exact Hlen |]. now exists a1, a2, a3.
    + split; [discriminate | intros [H _]; contradiction].
Qed.

(** X4. With any number of arguments other than four, either script
    prints the object whose only field is [error] with the usage text and
    exits with status 1, whatever the arguments are. *)
Theorem wrong_argument_count_prints_usage :
  forall (E : Predict.env) (T : Template.env) (argv : list string),
    length argv <> 5 ->
    main E argv = (JObj [("error", JStr usage)], 1)
    /\ Template.main T argv = (JObj [("error", JStr Template.usage)], 1)
    /\ usage = Template.usage.
Proof.
  intros E T argv Hlen. unfold main, Template.main.
  apply Nat.eqb_neq in Hlen. rewrite Hlen. repeat split.
Qed.

Lemma wrong_argument_count_prints_usage_witness :
  length ["predict.py"; "19.07"; "72.87"] <> 5
  /\ snd (main (Sample.world Sample.no_location)
               ["predict.py"; "19.07"; "72.87"]) = 1.
Proof.
  assert (Hlen : length ["predict.py"; "19.07"; "72.87"] <> 5) by discriminate.
  split; [exact Hlen |].
  destruct (wrong_argument_count_prints_usage
              (Sample.world Sample.no_location) Sample.template_world
              ["predict.py"; "19.07"; "72.87"] Hlen) as [Hmain _].
  now rewrite Hmain.
Defined.

(** X5. With four arguments, the first of latitude, longitude and accuracy
    that does not convert decides the output: the script prints the
    hard-error object carrying that conversion's message and exits with
    status 1, without consulting the geocoder. *)
Theorem first_bad_number_is_reported :
  forall (E : env) (argv : list string),
    length argv = 5 ->
    (forall e, parse_float E (nth 1 argv "") = Raise e ->
               main E argv = (JObj (error_result e), 1))
    /\ (forall lat e,
          parse_float E (nth 1 argv "") = Ok lat ->
          parse_float E (nth 2 argv "") = Raise e ->
          main E argv = (JObj (error_result e), 1))
    /\ (forall lat lon e,
          parse_float E (nth 1 argv "") = Ok lat ->
          parse_float E (nth 2 argv "") = Ok lon ->
          parse_float E (nth 3 argv "") = Raise e ->
          main E argv = (JObj (error_result e), 1)).
Proof.
  intros E argv Hlen. unfold main. rewrite Hlen. cbn [Nat.eqb negb].
  split; [| split].
  - now intros e ->.
  - now intros lat e -> ->.
  - now intros lat lon e -> -> ->.
Qed.

Lemma first_bad_number_is_reported_witness :
  let argv := ["predict.py"; "19.07"; "east"; "north"; "u1"] in
  length argv = 5
  /\ main (Sample.world (Sample.geocoder "Mumbai")) argv
     = (JObj (error_result "could not convert string to float: 'east'"), 1).
Proof.
  intros argv. split; [reflexivity |].
  exact (proj1 (proj2 (first_bad_number_is_reported
                         (Sample.world (Sample.geocoder "Mumbai")) argv eq_refl))
               19.07%Q "could not convert string to float: 'east'"
               eq_refl eq_refl).
Defined.

(** X6. What the wired-up script prints does not depend on the accuracy
    value or on the user identifier: two invocations with the same
    latitude and longitude arguments and any convertible accuracy print
    the same object with the same exit status. *)
Theorem accuracy_and_user_are_ignored :
  forall (E : env) (argv argv' : list string) (acc acc' : Q),
    length argv = 5 ->
    length argv' = 5 ->
    nth 1 argv "" = nth 1 argv' "" ->
    nth 2 argv "" = nth 2 argv' "" ->
    parse_float E (nth 3 argv "") = Ok acc ->
    parse_float E (nth 3 argv' "") = Ok acc' ->
    main E argv = main E argv'.
Proof.
  intros E argv argv' acc acc' Hlen Hlen' H1 H2 H3 H3'.
  unfold main. rewrite Hlen, Hlen', <- H1, <- H2, H3, H3'.
  destruct (parse_float E (nth 1 argv "")) as [lat | e]; [| reflexivity].
  destruct (parse_float E (nth 2 argv "")) as [lon | e]; [| reflexivity].
  reflexivity.
Qed.

Lemma accuracy_and_user_are_ignored_witness :
  main (Sample.world (Sample.geocoder "Mumbai"))
       ["predict.py"; "19.07"; "72.87"; "10"; "u1"]
  = main (Sample.world (Sample.geocoder "Mumbai"))
         ["predict.py"; "19.07"; "72.87"; "72.87"; "someone else"].
Proof.
  exact (accuracy_and_user_are_ignored
           (Sample.world (Sample.geocoder "Mumbai"))
           ["predict.py"; "19.07"; "72.87"; "10"; "u1"]
           ["predict.py"; "19.07"; "72.87"; "72.87"; "someone else"]
           10%Q 72.87%Q eq_refl eq_refl eq_refl eq_refl eq_refl eq_refl).
Defined.

(* ===================================================================== *)
(** ** The profile lookup *)
(* ===================================================================== *)

Lemma string_app_assoc (a b c : string) : (a ++ b) ++ c = a ++ b ++ c.
Proof. induction a as [|x a IH]; simpl; [reflexivity | now rewrite IH]. Qed.

Lemma string_app_nil_r (a : string) : a ++ "" = a.
Proof. induction a as [|x a IH]; simpl; [reflexivity | now rewrite IH]. Qed.

Lemma format_item_step (message : string) (kv : string * cell) :
  format_item message kv = message ++ (if displayable kv then line_of kv else "").
Proof.
  destruct kv as [key [value |]]; unfold format_item, displayable, line_of.
  - destruct (negb (key =? "District")).
    + reflexivity.
    + now rewrite string_app_nil_r.
  - now rewrite string_app_nil_r.
Qed.

Lemma format_row (r : row) (message : string) :
  fold_left format_item r message
  = message ++ fold_right String.append "" (map line_of (filter displayable r)).
Proof.
  revert message; induction r as [|kv r IH]; intros message; simpl.
  - now rewrite string_app_nil_r.
  - rewrite IH, format_item_step.
    destruct (displayable kv); simpl.
    + now rewrite string_app_assoc.
    + now rewrite string_app_nil_r.
Qed.

Lemma filter_skips_prefix (A : Type) (f : A -> bool) (pre post : list A) (x : A) :
  (forall y, In y pre -> f y = false) -> f x = true ->
  filter f (pre ++ x :: post) = x :: filter f post.
Proof.
  intros Hpre Hx. induction pre as [|y pre IH]; simpl.
  - now rewrite Hx.
  - rewrite (Hpre y (or_introl eq_refl)). apply IH.
    intros z Hz. apply Hpre. now right.
Qed.

Lemma filter_none (A : Type) (f : A -> bool) (l : list A) :
  (forall x, In x l -> f x = false) -> filter f l = [].
Proof.
  intros H. induction l as [|x l IH]; [reflexivity |]. simpl.
  rewrite (H x (or_introl eq_refl)). apply IH.
  intros y Hy. apply H. now right.
Qed.

(** X7. The profile lookup does not distinguish district names that
    differ only in the case of their letters. *)
Theorem lookup_ignores_case :
  forall (self : model) (d1 d2 : string),
    lower d1 = lower d2 ->
    get_district_threats self (Some d1) = get_district_threats self (Some d2).
Proof.
  intros self d1 d2 Hlow. unfold get_district_threats.
  destruct (threat_profiles_df self) as [df |]; [| reflexivity].
  rewrite (filter_ext (row_matches d1) (row_matches d2)); [reflexivity |].
  intros r. unfold row_matches. now rewrite Hlow.
Qed.

Lemma lookup_ignores_case_witness :
  let self :=
    {| model_loaded := true; data_loaded := false; model_version := "1.0";
       threat_profiles_df :=
         Some [[("District", Some "Mumbai"); ("crime_rate", Some "[high]")]] |} in
  lower "MUMBAI" = lower "mumbai"
  /\ get_district_threats self (Some "MUMBAI")
     = get_district_threats self (Some "mumbai").
Proof.
  intros self. split; [reflexivity |].
  exact (lookup_ignores_case self "MUMBAI" "mumbai" eq_refl).
Defined.

(** X8. With a loaded table in which no row is for the district, the
    lookup answers "No specific threat data available for this district",
    and the history line of the insights is then the "Limited" one. *)
Theorem district_without_row_is_limited :
  forall (self : model) (df : dataframe) (d : string) (ts : list threat),
    threat_profiles_df self = Some df ->
    (forall r, In r df -> row_matches d r = false) ->
    get_district_threats self (Some d)
    = "No specific threat data available for this district"
    /\ nth_error (_generate_insights d ts (get_district_threats self (Some d)))
                 (history_index ts)
       = Some limited_line.
Proof.
  intros self df d ts Hdf Hrows.
  assert (Hsent : get_district_threats self (Some d)
                  = "No specific threat data available for this district").
  { unfold get_district_threats. rewrite Hdf.
    now rewrite (filter_none _ (row_matches d) df Hrows). }
  split; [exact Hsent |].
  unfold history_index. rewrite history_line, Hsent. reflexivity.
Qed.

Lemma district_without_row_is_limited_witness :
  let df := [[("District", Some "Mumbai"); ("crime_rate", Some "[high]")]] in
  let self :=
    {| model_loaded := true; data_loaded := false; model_version := "1.0";
       threat_profiles_df := Some df |} in
  (forall r, In r df -> row_matches "Pune" r = false)
  /\ get_district_threats self (Some "Pune")
     = "No specific threat data available for this district".
Proof.
  intros df self.
  assert (Hrows : forall r, In r df -> row_matches "Pune" r = false).
  { intros r [<- | []]. reflexivity. }
  split; [exact Hrows |].
  exact (proj1 (district_without_row_is_limited self df "Pune" [] eq_refl Hrows)).
Defined.

(** X9. The lookup renders the first row of the table that is for the
    district, and only that row: one line per attribute that has a value,
    in column order, leaving out the [District] column and the attributes
    without a value. *)
Theorem lookup_renders_first_matching_row :
  forall (self : model) (d : string) (before after : list row) (r : row),
    threat_profiles_df self = Some (before ++ r :: after)%list ->
    (forall x, In x before -> row_matches d x = false) ->
    row_matches d r = true ->
    get_district_threats self (Some d)
    = fold_right String.append "" (map line_of (filter displayable r)).
Proof.
  intros self d before after r Hdf Hpre Hr.
  unfold get_district_threats. rewrite Hdf.
  rewrite (filter_skips_prefix _ (row_matches d) before after r Hpre Hr).
  now rewrite format_row.
Qed.

Lemma lookup_renders_first_matching_row_witness :
  let other := [("District", Some "Delhi"); ("crime_rate", Some "[low]")] in
  let first := [("District", Some "Pune"); ("crime_rate", Some "['high']");
                ("flood_risk", None); ("scam_alerts", Some "[taxi, 'atm']")] in
  let second := [("District", Some "PUNE"); ("crime_rate", Some "[low]")] in
  let self :=
    {| model_loaded := true; data_loaded := false; model_version := "1.0";
       threat_profiles_df := Some [other; first; second] |} in
  row_matches "pune" first = true
  /\ get_district_threats self (Some "pune")
     = newline ++ "- Crime Rate: high" ++ newline ++ "- Scam Alerts: taxi, atm".
Proof.
  intros other first second self. split; [reflexivity |].
  assert (Hpre : forall x, In x [other] -> row_matches "pune" x = false).
  { intros x [<- | []]. reflexivity. }
  exact (lookup_renders_first_matching_row
           self "pune" [other] [second] first eq_refl Hpre eq_refl).
Defined.

Lemma chars_remove_char (c : ascii) (s : string) :
  list_ascii_of_string (remove_char c s)
  = filter (fun a => negb (Ascii.eqb a c)) (list_ascii_of_string s).
Proof.
  induction s as [|a s IH]; simpl; [reflexivity |].
  destruct (Ascii.eqb a c); simpl; now rewrite IH.
Qed.

(** X10. The value shown for an attribute is the stored text with every
    opening bracket, closing bracket and apostrophe removed; all other
    characters are kept, in order. *)
Theorem clean_value_drops_brackets_and_quotes :
  forall value : string,
    list_ascii_of_string (clean_value value)
    = filter (fun a => negb (Ascii.eqb a "[" || Ascii.eqb a "]"
                             || Ascii.eqb a "'"))
             (list_ascii_of_string value).
Proof.
  intros value. unfold clean_value. rewrite !chars_remove_char.
  induction (list_ascii_of_string value) as [|a l IH]; [reflexivity |].
  simpl. destruct (Ascii.eqb a "["); simpl; [exact IH |].
  destruct (Ascii.eqb a "]"); simpl; [exact IH |].
  destruct (Ascii.eqb a "'"); simpl; [exact IH | now rewrite IH].
Qed.

(** X11. A row for the district whose attributes all lack a value renders
    as the empty text; that text is not a sentinel, so the history line
    of the insights claims that historical data is available. *)
Theorem row_without_values_counts_as_data :
  forall (self : model) (d : string) (before after : list row) (r : row)
         (ts : list threat),
    threat_profiles_df self = Some (before ++ r :: after)%list ->
    (forall x, In x before -> row_matches d x = false) ->
    row_matches d r = true ->
    (forall kv, In kv r -> displayable kv = false) ->
    get_district_threats self (Some d) = ""
    /\ nth_error (_generate_insights d ts (get_district_threats self (Some d)))
                 (history_index ts)
       = Some historical_line.
Proof.
  intros self d before after r ts Hdf Hpre Hr Hnone.
  assert (Hempty : get_district_threats self (Some d) = "").
  { unfold get_district_threats. rewrite Hdf.
    rewrite (filter_skips_prefix _ (row_matches d) before after r Hpre Hr).
    rewrite format_row.
    now rewrite (filter_none _ displayable r Hnone). }
  split; [exact Hempty |].
  unfold history_index. rewrite history_line, Hempty. reflexivity.
Qed.

Lemma row_without_values_counts_as_data_witness :
  let r := [("District", Some "Pune"); ("crime_rate", None)] in
  let self :=
    {| model_loaded := true; data_loaded := false; model_version := "1.0";
       threat_profiles_df := Some [r] |} in
  row_matches "Pune" r = true
  /\ get_district_threats self (Some "Pune") = ""
  /\ nth_error (_generate_insights "Pune" []
                  (get_district_threats self (Some "Pune"))) 2
     = Some historical_line.
Proof.
  intros r self. split; [reflexivity |].
  assert (Hnone : forall kv, In kv r -> displayable kv = false).
  { intros kv [<- | [<- | []]]; reflexivity. }
  exact (row_without_values_counts_as_data
           self "Pune" [] [] r [] eq_refl (fun x (H : In x []) => match H with end)
           eq_refl Hnone).
Defined.

(* ===================================================================== *)
(** ** More on the scan of the signal list *)
(* ===================================================================== *)

Lemma substring_trans (a b c : string) :
  Spec.substring_of a b -> Spec.substring_of b c -> Spec.substring_of a c.
Proof.
  intros [p1 [q1 ->]] [p2 [q2 ->]].
  exists (p2 ++ p1), (q1 ++ q2). now rewrite !string_app_assoc.
Qed.

Lemma filter_length_mono (A : Type) (f g : A -> bool) (l : list A) :
  (forall x, f x = true -> g x = true) ->
  length (filter f l) <= length (filter g l).
Proof.
  intros H. induction l as [|x l IH]; simpl; [lia |].
  destruct (f x) eqn:Hf.
  - rewrite (H x Hf). simpl. lia.
  - destruct (g x); simpl; lia.
Qed.

Lemma titles_of_entries (d : string) (l : list article) :
  map t_title (map (entry_of d) l) = map title_of l.
Proof. rewrite map_map. now apply map_ext. Qed.

Lemma filter_drop_middle (A : Type) (f : A -> bool) (pre post : list A) (x : A) :
  f x = false -> filter f (pre ++ x :: post) = filter f (pre ++ post).
Proof.
  intros Hx. rewrite !filter_app. simpl. now rewrite Hx.
Qed.

(** X12. An article that has no title, or whose title holds none of the
    keywords, never adds a threat, whatever the district and wherever it
    stands in the list. *)
Theorem article_without_keyword_is_skipped :
  forall (before after : list article) (a : article) (d : string),
    (art_title a = None
     \/ forall k, In k THREAT_KEYWORDS -> str_in k (lower (title_of a)) = false) ->
    detect_threats (before ++ a :: after) d = detect_threats (before ++ after) d.
Proof.
  intros before after a d H.
  assert (Hno : matches d a = false).
  { unfold matches. destruct H as [H | H].
    - unfold title_of. now rewrite H.
    - replace (existsb _ THREAT_KEYWORDS) with false; [reflexivity |].
      symmetry. apply not_true_is_false. intros Hex.
      apply existsb_exists in Hex as [k [Hin Hk]].
      rewrite (H k Hin) in Hk. discriminate. }
  rewrite !detect_threats_filter. now rewrite (filter_drop_middle _ _ _ _ _ Hno).
Qed.

Lemma article_without_keyword_is_skipped_witness :
  let untitled := {| art_title := None;
                     art_source := None;
                     art_url := Some "https://example.com/mumbai" |} in
  art_title untitled = None
  /\ detect_threats (untitled :: get_mock_news_articles) "Mumbai"
     = detect_threats get_mock_news_articles "Mumbai".
Proof.
  intros untitled. split; [reflexivity |].
  exact (article_without_keyword_is_skipped
           [] get_mock_news_articles untitled "Mumbai" (or_introl eq_refl)).
Defined.

(** X13. Matching is by substring: if the lower-cased name of one
    district occurs inside the lower-cased name of another, every headline
    that matches the longer name also matches the shorter one, so the
    shorter name never has fewer threats. *)
Theorem contained_district_name_matches_more :
  forall (news : list article) (d1 d2 : string),
    Spec.substring_of (lower d1) (lower d2) ->
    (forall a, matches d2 a = true -> matches d1 a = true)
    /\ incl (map t_title (detect_threats news d2))
            (map t_title (detect_threats news d1))
    /\ length (detect_threats news d2) <= length (detect_threats news d1).
Proof.
  intros news d1 d2 Hsub.
  assert (Hm : forall a, matches d2 a = true -> matches d1 a = true).
  { intros a. unfold matches. rewrite !andb_true_iff, !str_in_iff_substring.
    intros [Hk Hd]. split; [exact Hk |]. exact (substring_trans _ _ _ Hsub Hd). }
  split; [exact Hm |]. rewrite !detect_threats_filter. split.
  - rewrite !titles_of_entries. intros t Ht.
    apply in_map_iff in Ht as [a [<- Ha]]. apply in_map.
    apply filter_In in Ha as [Hin Ha]. apply filter_In. auto.
  - rewrite !length_map. now apply filter_length_mono.
Qed.

Lemma contained_district_name_matches_more_witness :
  Spec.substring_of (lower "Pur") (lower "Jaipur")
  /\ length (detect_threats get_mock_news_articles "Jaipur")
     <= length (detect_threats get_mock_news_articles "Pur").
Proof.
  assert (Hsub : Spec.substring_of (lower "Pur") (lower "Jaipur")).
  { exists "jai", "". reflexivity. }
  split; [exact Hsub |].
  exact (proj2 (proj2 (contained_district_name_matches_more
                         get_mock_news_articles "Pur" "Jaipur" Hsub))).
Defined.

(** X14. Matching does not distinguish district names that differ only in
    the case of their letters: the same headlines match, in the same
    order. *)
Theorem matching_ignores_district_case :
  forall (news : list article) (d1 d2 : string),
    lower d1 = lower d2 ->
    map t_title (detect_threats news d1) = map t_title (detect_threats news d2)
    /\ length (detect_threats news d1) = length (detect_threats news d2).
Proof.
  intros news d1 d2 Hlow.
  assert (Hf : filter (matches d1) news = filter (matches d2) news).
  { apply filter_ext. intros a. unfold matches. now rewrite Hlow. }
  rewrite !detect_threats_filter, !titles_of_entries, !length_map.
  now rewrite Hf.
Qed.

Lemma matching_ignores_district_case_witness :
  lower "MUMBAI" = lower "mumbai"
  /\ length (detect_threats get_mock_news_articles "MUMBAI")
     = length (detect_threats get_mock_news_articles "mumbai").
Proof.
  split; [reflexivity |].
  exact (proj2 (matching_ignores_district_case
                  get_mock_news_articles "MUMBAI" "mumbai" eq_refl)).
Defined.

(** X15. The scan records at most one threat per article, so no result of
    [analyze_threats] reports more than the five mock headlines. *)
Theorem threat_count_is_bounded :
  (forall (news : list article) (d : string),
     length (detect_threats news d) <= length news)
  /\ (forall (E : env) (self : model) (latitude longitude accuracy : Q)
             (user_id : string),
        exists n,
          field "threats_detected"
                (analyze_threats E self latitude longitude accuracy user_id)
          = Some (JInt n)
          /\ n <= 5).
Proof.
  assert (Hb : forall news d, length (detect_threats news d) <= length news).
  { intros news d. rewrite detect_threats_filter, length_map.
    apply filter_length_le. }
  split; [exact Hb |].
  intros E self lat lon acc uid.
  by_resolution E self lat lon acc uid d Hd Hne Ht.
  - eexists. split; [reflexivity |]. apply (Hb get_mock_news_articles d).
  - exists 0. split; [reflexivity | lia].
Qed.

(* ===================================================================== *)
(** ** Insights, recommendations and the alert *)
(* ===================================================================== *)

(** X16. The insights always have four lines more than there are threats:
    the opening line about the district comes first, the closing line
    about the method comes last, and with threats present the lines from
    the third on name the threats' titles in the order of the list. *)
Theorem insight_lines :
  forall (d : string) (ts : list threat) (profile : string),
    let lines := _generate_insights d ts profile in
    length lines = 4 + length ts
    /\ nth_error lines 0 = Some ("Analyzing safety conditions in " ++ d)
    /\ (forall i t,
          nth_error ts i = Some t ->
          nth_error lines (2 + i) = Some ("Active threat: " ++ t_title t))
    /\ nth_error lines (3 + length ts)
       = Some "Analysis based on real-time news and historical data".
Proof.
  intros d ts profile lines. subst lines. rewrite insights_shape.
  destruct ts as [|t0 ts].
  - cbn [length Nat.ltb Nat.leb app nth_error Nat.add].
    repeat split. intros [|i] t H; discriminate H.
  - assert (Hpos : (0 <? length (t0 :: ts))%nat = true) by reflexivity.
    rewrite Hpos. clear Hpos. generalize (t0 :: ts) as first. intros first.
    cbn [app length Nat.add nth_error].
    rewrite length_app, length_map. cbn [length].
    split; [lia |]. split; [reflexivity |]. split.
    + intros i t Hi.
      rewrite nth_error_app1
        by (rewrite length_map; apply nth_error_Some; congruence).
      now rewrite nth_error_map, Hi.
    + match goal with
      | |- match ?l with _ => _ end = ?rhs =>
          change (nth_error l (S (length first)) = rhs)
      end.
      rewrite nth_error_app2 by (rewrite length_map; lia).
      rewrite length_map.
      replace (S (length first) - length first) with 1 by lia.
      reflexivity.
Qed.

(** X17. The recommendations of a result are the two fallback lines when
    the level is [unknown]; otherwise there are three of them when no
    threat matched, and six when at least one did, the last two then
    being the advice to monitor the news and to use other transport. *)
Theorem recommendation_lines :
  forall (E : env) (self : model) (latitude longitude accuracy : Q)
         (user_id : string),
    let r := analyze_threats E self latitude longitude accuracy user_id in
    exists recs n,
      field "recommendations" r = Some (strs recs)
      /\ field "threats_detected" r = Some (JInt n)
      /\ ((field "risk_level" r = Some (JStr "unknown")
           /\ recs = ["Use general safety precautions"; "Stay alert"])
          \/ (field "risk_level" r = Some (JStr "low")
              /\ n = 0 /\ length recs = 3)
          \/ (0 < n
              /\ length recs = 6
              /\ skipn 4 recs = ["Monitor local news for updates";
                                 "Consider using alternative transportation"])).
Proof.
  intros E self lat lon acc uid r. subst r.
  by_resolution E self lat lon acc uid d Hd Hne Ht.
  - generalize (detect_threats get_mock_news_articles d) as ts. intros ts.
    do 2 eexists. split; [reflexivity |]. split; [reflexivity |].
    destruct ts as [|t1 [|t2 ts]]; cbn [length].
    + right. left. repeat split.
    + right. right. repeat split. lia.
    + right. right. repeat split. lia.
  - do 2 eexists. split; [reflexivity |]. split; [reflexivity |].
    left. split; reflexivity.
Qed.

(** X18. [_check_safety_alert] returns an alert exactly when the level is
    [high] or [medium] (spelled in lower case) and the list of threats is
    not empty; any other level, and any level without threats, gives no
    alert. *)
Theorem alert_needs_level_and_threats :
  forall (risk_level : string) (ts : list threat),
    _check_safety_alert risk_level ts <> JNull
    <-> (risk_level = "high" \/ risk_level = "medium") /\ ts <> [].
Proof.
  intros level ts. unfold _check_safety_alert.
  destruct ts as [|t ts]; cbn [length Nat.ltb Nat.leb].
  - rewrite !andb_false_r. split; [congruence | intros [_ H]; congruence].
  - rewrite !andb_true_r.
    destruct (String.eqb_spec level "high") as [-> | Hh].
    + split; [intros _; split; [now left | discriminate] | discriminate].
    + destruct (String.eqb_spec level "medium") as [-> | Hm].
      * split; [intros _; split; [now right | discriminate] | discriminate].
      * split; [congruence | intros [[H | H] _]; congruence].
Qed.

(* ===================================================================== *)
(** ** The templated script's rules *)
(* ===================================================================== *)

Lemma ltb_true (a b : Q) : ltb a b = true <-> (a < b)%Q.
Proof.
  unfold ltb. rewrite negb_true_iff, <- not_true_iff_false, Qle_bool_iff.
  split; [apply Qnot_le_lt | apply Qlt_not_le].
Qed.

Lemma ltb_false (a b : Q) : ltb a b = false <-> (b <= a)%Q.
Proof. unfold ltb. now rewrite negb_false_iff, Qle_bool_iff. Qed.

Ltac order_facts :=
  repeat match goal with
         | H : ltb _ _ = true |- _ => apply ltb_true in H
         | H : ltb _ _ = false |- _ => apply ltb_false in H
         end.

(** X19. The templated script never raises the high-risk alert: a high
    level needs an accuracy above 50, and then the confidence is 0.50,
    below what the alert asks for.  The only alert it returns is the
    moderate one, exactly when the coordinates lie in the example area
    and the accuracy is below 25. *)
Theorem template_alert_is_moderate_or_null :
  forall (T : Template.env) (self : Template.model)
         (latitude longitude accuracy : Q) (user_id : string),
    let r := Template.predict T self latitude longitude accuracy user_id in
    field "safety_alert" r
    = Some (if in_example_area latitude longitude && ltb accuracy 25
            then JObj [("type", JStr "moderate_risk");
                       ("severity", JStr "medium");
                       ("message",
                        JStr "Moderate risk detected. Please be cautious.")]
            else JNull)
    /\ (field "risk_level" r = Some (JStr "high") ->
        field "confidence" r = Some (JNum 0.50))
    /\ (forall alert,
          field "safety_alert" r = Some alert ->
          subfield "type" alert <> Some (JStr "high_risk_area")).
Proof.
  intros T self lat lon acc uid r. subst r.
  unfold Template.predict, Template.predict_try, try_except,
    Template._calculate_risk_level, Template._calculate_confidence,
    in_example_area.
  set (area := leb 23.0 lat && leb lat 23.1 && leb 72.5 lon && leb lon 72.6).
  destruct (ltb 50 acc) eqn:H50; destruct (ltb acc 10) eqn:H10;
    destruct (ltb acc 25) eqn:H25; destruct (ltb acc 50) eqn:H50';
    order_facts; try (exfalso; lra);
    destruct area;
    (split; [reflexivity |]);
    (split; [intros H; try reflexivity; discriminate H |]);
    intros alert H; injection H as <-; discriminate.
Qed.

(** X20. The template's confidence takes one of the four values 0.95,
    0.85, 0.70 and 0.50, and it never grows when the accuracy radius
    grows. *)
Theorem template_confidence_is_antitone :
  forall a1 a2 : Q,
    (a1 <= a2)%Q ->
    (Template._calculate_confidence a2 <= Template._calculate_confidence a1)%Q
    /\ In (Template._calculate_confidence a1) [0.95%Q; 0.85%Q; 0.70%Q; 0.50%Q].
Proof.
  intros a1 a2 Hle. unfold Template._calculate_confidence.
  destruct (ltb a1 10) eqn:H1; destruct (ltb a1 25) eqn:H2;
    destruct (ltb a1 50) eqn:H3;
    destruct (ltb a2 10) eqn:H4; destruct (ltb a2 25) eqn:H5;
    destruct (ltb a2 50) eqn:H6;
    order_facts; try (exfalso; lra);
    (split; [apply Qle_bool_iff; reflexivity | cbn; tauto]).
Qed.

Lemma template_confidence_is_antitone_witness :
  (10 <= 30)%Q
  /\ (Template._calculate_confidence 30 <= Template._calculate_confidence 10)%Q.
Proof.
  assert (H : (10 <= 30)%Q) by (apply Qle_bool_iff; reflexivity).
  split; [exact H |].
  exact (proj1 (template_confidence_is_antitone 10 30 H)).
Defined.

(* ===================================================================== *)
(** ** Loading the profile table *)
(* ===================================================================== *)

(** X21. After [load_model] the flag [model_loaded] is set exactly when
    the profile file exists and was read, and the table is then the one
    read.  A load that fails clears the flag and leaves whatever table
    the object held; the version never changes, and loading twice is the
    same as loading once. *)
Theorem load_model_flag_and_table :
  forall (E : env) (self : model),
    let loaded := load_model E self in
    (model_loaded loaded = true <-> exists df, profile_file E = Some (Ok df))
    /\ (forall df, profile_file E = Some (Ok df) ->
                   threat_profiles_df loaded = Some df)
    /\ (model_loaded loaded = false ->
        threat_profiles_df loaded = threat_profiles_df self)
    /\ model_version loaded = model_version self
    /\ load_model E loaded = loaded.
Proof.
  intros E self loaded. subst loaded. unfold load_model.
  destruct (profile_file E) as [[df | e] |]; cbn.
  - repeat split; try discriminate.
    + intros _. now exists df.
    + now intros df' [= ->].
  - repeat split; try discriminate.
    intros [df H]. discriminate H.
  - repeat split; try discriminate.
    intros [df H]. discriminate H.
Qed.

(* ===================================================================== *)
(** ** Agreement between the fields of a result *)
(* ===================================================================== *)

(** X22. The prediction sentence of a result always agrees with its risk
    level and names the reported district: it is the high, moderate or
    low sentence for that district when the level is high, medium or low,
    and an "Analysis failed" sentence when the level is unknown. *)
Theorem prediction_agrees_with_level :
  forall (E : env) (self : model) (latitude longitude accuracy : Q)
         (user_id : string),
    let r := analyze_threats E self latitude longitude accuracy user_id in
    exists level text d,
      field "risk_level" r = Some (JStr level)
      /\ field "prediction" r = Some (JStr text)
      /\ field "district" r = Some (JStr d)
      /\ ((level = "high"
           /\ text = "High risk detected in " ++ d
                     ++ ". Multiple threats identified. Avoid if possible.")
          \/ (level = "medium"
              /\ text = "Moderate risk in " ++ d
                        ++ ". Some safety concerns present. Exercise caution.")
          \/ (level = "low"
              /\ text = "Low risk in " ++ d
                        ++ ". Area appears generally safe for normal activities.")
          \/ (level = "unknown"
              /\ d = "Unknown"
              /\ text = "Analysis failed: Could not determine district from coordinates")).
Proof.
  intros E self lat lon acc uid r. subst r.
  by_resolution E self lat lon acc uid d Hd Hne Ht.
  - generalize (detect_threats get_mock_news_articles d) as ts. intros ts.
    do 2 eexists. exists d.
    split; [reflexivity |]. split; [reflexivity |]. split; [reflexivity |].
    destruct ts as [|t1 [|t2 ts]]; cbn [length Nat.ltb Nat.leb].
    + right. right. left. split; reflexivity.
    + right. left. split; reflexivity.
    + left. split; reflexivity.
  - do 3 eexists.
    split; [reflexivity |]. split; [reflexivity |]. split; [reflexivity |].
    right. right. right. repeat split.
Qed.

(** X23. Every threat that a result reports obeys the match rule: its
    title, lower-cased, holds one of the keywords and the lower-cased name
    of the district that the result reports. *)
Theorem reported_threats_satisfy_rule :
  forall (E : env) (self : model) (latitude longitude accuracy : Q)
         (user_id : string),
    let r := analyze_threats E self latitude longitude accuracy user_id in
    exists details,
      field "threat_details" r = Some (JList details)
      /\ forall t, In t details ->
           exists title d,
             subfield "title" t = Some (JStr title)
             /\ field "district" r = Some (JStr d)
             /\ Spec.threat_match title d.
Proof.
  intros E self lat lon acc uid r. subst r.
  by_resolution E self lat lon acc uid d Hd Hne Ht.
  - eexists. split; [reflexivity |].
    intros t Hin. apply in_map_iff in Hin as [x [<- Hx]].
    rewrite detect_threats_filter in Hx.
    apply in_map_iff in Hx as [a [<- Ha]].
    apply filter_In in Ha as [_ Hm].
    exists (title_of a), d. split; [reflexivity |]. split; [reflexivity |].
    now apply matches_iff.
  - exists []. split; [reflexivity |]. intros t [].
Qed.

(** X24. An empty district name would match every headline that holds a
    keyword, because the empty text occurs in every title; the analysis
    never gets that far: an address whose best component is the empty
    text is treated like an unresolved one and gives the fallback
    result. *)
Theorem empty_district_is_rejected :
  (forall a : article,
     matches "" a
     = existsb (fun keyword => str_in keyword (lower (title_of a)))
               THREAT_KEYWORDS)
  /\ (forall (E : env) (self : model) (latitude longitude accuracy : Q)
             (user_id : string),
        get_district_from_coordinates E latitude longitude = Some "" ->
        analyze_threats E self latitude longitude accuracy user_id
        = _get_fallback_result self
            "Could not determine district from coordinates").
Proof.
  split.
  - intros a. unfold matches.
    replace (str_in (lower "") (lower (title_of a))) with true;
      [now rewrite andb_true_r |].
    symmetry. apply str_in_iff_substring. now exists "", (lower (title_of a)).
  - intros E self lat lon acc uid Hd.
    apply result_of_attempt. apply attempt_unresolved. now rewrite Hd.
Qed.

